(** * SkillBridge API: aggregate maintenance, access control, error
      translation and paging

    A shallow embedding of the model hooks ([models/Course.js],
    [models/Review.js]), the error middleware ([middleware/error.js]), the
    users router and controller ([routes/users.js], [controllers/users.js])
    and the process-level rejection handler of [server.js], followed by the
    properties the specification states about them.

    Conventions.
    - A JS Number is an exact rational in canonical form ([Qc]); the
      binary floating-point rounding of the runtime is not represented.
    - A Mongo collection is a finite map from [_id] to document.
    - A JSON key that is left out is [None]; a key that is present holds
      [Some] value. *)

From Stdlib Require Import QArith Qcanon Qround ZArith Lia Ascii.
From stdpp Require Import gmap strings list fin_maps.

Local Open Scope Z_scope.

(** ** Numbers *)

Module Num.

Definition ofZ (z : Z) : Qc := Q2Qc (inject_Z z).

Definition sum (l : list Qc) : Qc := foldr Qcplus (ofZ 0) l.

(** [$avg]: the sum of the values divided by how many there are. *)
Definition avg (l : list Qc) : Qc :=
  (sum l / ofZ (Z.of_nat (length l)))%Qc.

(** [Math.ceil]. *)
Definition ceil (x : Qc) : Qc := ofZ (Qceiling x).

End Num.

(** The identity of a record: the canonical text of a Mongo ObjectId. *)
Definition ObjectId := string.

(** ** Errors, console and promises *)

(** What a response carries under [error]: [errorHandler] sends a string,
    or, for a validation error, the array of the messages. *)
Inductive Msg :=
| MsgText (s : string)
| MsgList (l : list string).

Module Err.

(** The properties of a thrown object that [errorHandler] reads. *)
Record t := mk {
  name : string;
  message : Msg;
  code : option Z;
  statusCode : option Z;
  errors : list string
}.

End Err.

(** Modelled from the spec: [utils/errorResponse.js] is not among the
    sources; this is the class as [middleware/error.js] and
    [controllers/users.js] use it to carry a message and a status:
    [new ErrorResponse(message, statusCode)] is an [Error] that carries
    the two arguments as [message] and [statusCode]. *)
Definition ErrorResponse (message : Msg) (statusCode : Z) : Err.t :=
  Err.mk "Error" message None (Some statusCode) [].

(** Mongoose's error for a value that cannot be cast to the schema type
    of [path]. *)
Definition CastError (value path : string) : Err.t :=
  Err.mk "CastError"
    (MsgText ("Cast to ObjectId failed for value " +:+ value +:+
              " at path " +:+ path))
    None None [].

(** The driver's error for a write that violates a unique index. *)
Definition DuplicateKeyError (index : string) : Err.t :=
  Err.mk "MongoServerError"
    (MsgText ("E11000 duplicate key error index: " +:+ index))
    (Some 11000) None [].

(** Mongoose's error for a document that fails its schema; [msgs] are the
    messages of the failing paths. *)
Definition ValidationError (msgs : list string) : Err.t :=
  Err.mk "ValidationError" (MsgText "Validation failed") None None msgs.

Inductive LogEntry :=
| LogText (s : string)
| LogError (e : Err.t).

(** ** Documents and collections *)

Module User.
(** Modelled from the spec: [models/User.js] is not among the sources;
    the fields are those the specification gives an Account and the tests
    read. *)
Record t := mk {
  name : string;
  email : string;
  role : string;
  password : string
}.
End User.

Module Bootcamp.
(** Modelled from the spec: [models/Bootcamp.js] is not among the
    sources; the fields are the owner and the two aggregates the
    specification gives a Parent Resource, which the maintainers write. *)
Record t := mk {
  name : string;
  user : ObjectId;
  averageCost : option Qc;
  averageRating : option Qc
}.

Definition set_averageCost (v : Qc) (b : t) : t :=
  mk (name b) (user b) (Some v) (averageRating b).

Definition set_averageRating (v : Qc) (b : t) : t :=
  mk (name b) (user b) (averageCost b) (Some v).
End Bootcamp.

Module CourseDoc.
(** A stored course, [CourseSchema]. *)
Record t := mk {
  title : string;
  description : string;
  weeks : string;
  tuition : Qc;
  bootcamp : ObjectId;
  user : ObjectId
}.
End CourseDoc.

Module ReviewDoc.
(** A stored review, [ReviewSchema]. *)
Record t := mk {
  title : string;
  text : string;
  rating : Qc;
  bootcamp : ObjectId;
  user : ObjectId
}.
End ReviewDoc.

Record Db := mkDb {
  users : gmap ObjectId User.t;
  bootcamps : gmap ObjectId Bootcamp.t;
  courses : gmap ObjectId CourseDoc.t;
  reviews : gmap ObjectId ReviewDoc.t
}.

(** The process: the database, what was written to the console, whether
    [server.js] runs as the main module, the rejections the runtime
    reported while no handler was installed, and the exit code once the
    process has been told to exit. *)
Record World := mkWorld {
  db : Db;
  console : list LogEntry;
  run_as_main : bool;
  unhandled : list Err.t;
  exited : option Z
}.

Definition console_log (l : LogEntry) (w : World) : World :=
  mkWorld (db w) (console w ++ [l]) (run_as_main w) (unhandled w) (exited w).

Definition set_db (d : Db) (w : World) : World :=
  mkWorld d (console w) (run_as_main w) (unhandled w) (exited w).

Definition set_bootcamps (bs : gmap ObjectId Bootcamp.t) (d : Db) : Db :=
  mkDb (users d) bs (courses d) (reviews d).

Definition set_courses (cs : gmap ObjectId CourseDoc.t) (d : Db) : Db :=
  mkDb (users d) (bootcamps d) cs (reviews d).

Definition set_reviews (rs : gmap ObjectId ReviewDoc.t) (d : Db) : Db :=
  mkDb (users d) (bootcamps d) (courses d) rs.

Definition set_users (us : gmap ObjectId User.t) (d : Db) : Db :=
  mkDb us (bootcamps d) (courses d) (reviews d).

(** The settled state of a promise returned by an [async] function that
    works on the process. *)
Inductive Promise :=
| Resolved (w : World)
| Rejected (e : Err.t) (w : World).

(** What the storage layer does to the two operations of one recomputation:
    [Some e] makes the operation reject with [e]. *)
Record Faults := mkFaults {
  aggregate_fault : option Err.t;
  update_fault : option Err.t
}.

Definition healthy : Faults := mkFaults None None.

(** ** What the libraries decide

    The outcome of verifying a bearer token ([jsonwebtoken] with the
    server's secret, at the time of the request). *)
Inductive TokenCheck :=
| Subject (id : ObjectId)
| Expired
| Invalid.

Class Platform := {
  (** Mongoose's cast of a string to an ObjectId; [None] when the string
      is not the text of one. *)
  castObjectId : string → option ObjectId;
  jwt_verify : string → TokenCheck;
  (** The text Mongoose gives a failed built-in validator, by kind
      ([min], [max], [maxlength]) and path. *)
  builtin_message : string → string → string
}.

(** [Array.prototype.join] with the default separator. *)
Fixpoint join_comma (l : list string) : string :=
  match l with
  | [] => EmptyString
  | [s] => s
  | s :: l' => s +:+ "," +:+ join_comma l'
  end.

(** [`${x}`] for what a response carries under [error]. *)
Definition msg_to_string (m : Msg) : string :=
  match m with
  | MsgText s => s
  | MsgList l => join_comma l
  end.

(** [String.prototype.trim], for the white space of ASCII. *)
Fixpoint trim_start (s : string) : string :=
  match s with
  | String a s' => if Ascii.is_space a then trim_start s' else s
  | EmptyString => EmptyString
  end.

Definition trim (s : string) : string :=
  String.rev (trim_start (String.rev (trim_start s))).

(** ** [server.js]: rejections nobody handles

    [process.on("unhandledRejection", ...)] is installed only when the
    file runs as the main module: it logs and closes the server, and the
    close callback exits with code 1. Otherwise the rejection is left to
    the runtime. *)
Definition unhandledRejection (err : Err.t) (w : World) : World :=
  if run_as_main w then
    let w1 := console_log (LogText ("Error: " +:+ msg_to_string (Err.message err))) w in
    mkWorld (db w1) (console w1) (run_as_main w1) (unhandled w1) (Some 1)
  else
    mkWorld (db w) (console w) (run_as_main w) (unhandled w ++ [err]) (exited w).

(** A call of an [async] function whose promise is dropped: the caller
    goes on whatever the promise settles to. *)
Definition fire_and_forget (p : Promise) : World :=
  match p with
  | Resolved w => w
  | Rejected e w => unhandledRejection e w
  end.

(** ** The aggregation pipeline *)

Section Pipeline.
Context {D : Type}.

(** [$match: { bootcamp: bootcampId }]. *)
Definition stage_match (key : D → ObjectId) (bootcampId : ObjectId)
    (docs : list D) : list D :=
  filter (λ d, key d = bootcampId) docs.

(** [$group: { _id: "$bootcamp", <out>: { $avg: "$<field>" } }]: one
    result per distinct key, holding the key and the mean of the field
    over the documents with that key. *)
Definition stage_group_avg (key : D → ObjectId) (field : D → Qc)
    (docs : list D) : list (ObjectId * Qc) :=
  (λ k, (k, Num.avg (field <$> filter (λ d, key d = k) docs)))
    <$> remove_dups (key <$> docs).

Definition aggregate (key : D → ObjectId) (field : D → Qc)
    (bootcampId : ObjectId) (coll : gmap ObjectId D)
    : list (ObjectId * Qc) :=
  stage_group_avg key field
    (stage_match key bootcampId (snd <$> map_to_list coll)).
End Pipeline.

(** [Model.findByIdAndUpdate(id, { <field>: v })] on the bootcamps: the
    document with that [_id] gets the field; with no such document
    nothing is written and the call resolves (to [null]). *)
Definition Bootcamp_findByIdAndUpdate (id : ObjectId)
    (upd : Bootcamp.t → Bootcamp.t) (d : Db) : Db :=
  set_bootcamps (alter upd id (bootcamps d)) d.

(** ** [models/Course.js] *)

Module Course.

(** [CourseSchema.statics.getAverageCost]. The [await] of the
    aggregation stands before the [try]: its rejection is the
    function's. The update stands inside: its rejection is logged. *)
Definition getAverageCost (f : Faults) (bootcampId : ObjectId)
    (w : World) : Promise :=
  match aggregate_fault f with
  | Some e => Rejected e w
  | None =>
    let obj := aggregate CourseDoc.bootcamp CourseDoc.tuition bootcampId
                 (courses (db w)) in
    match obj with
    | (_, averageCost) :: _ =>
      match update_fault f with
      | Some error => Resolved (console_log (LogError error) w)
      | None =>
        Resolved (set_db
          (Bootcamp_findByIdAndUpdate bootcampId
             (Bootcamp.set_averageCost
                (Num.ceil (averageCost / Num.ofZ 10) * Num.ofZ 10)%Qc)
             (db w)) w)
      end
    | [] =>
      Resolved (console_log
        (LogText ("No courses found for bootcamp " +:+ bootcampId)) w)
    end
  end.

(** [CourseSchema.post("save", ...)]: the call is not awaited and the
    hook returns nothing. *)
Definition post_save (f : Faults) (this : CourseDoc.t) (w : World) : World :=
  fire_and_forget (getAverageCost f (CourseDoc.bootcamp this) w).

(** [CourseSchema.pre("remove", ...)]. *)
Definition pre_remove (f : Faults) (this : CourseDoc.t) (w : World) : World :=
  fire_and_forget (getAverageCost f (CourseDoc.bootcamp this) w).

(** Saving a new document: the insertion, then the post-save hook. An
    [_id] that is taken is a duplicate key. *)
Definition create (f : Faults) (id : ObjectId) (doc : CourseDoc.t)
    (w : World) : Promise :=
  match courses (db w) !! id with
  | Some _ => Rejected (DuplicateKeyError "_id_") w
  | None =>
    Resolved (post_save f doc
      (set_db (set_courses (<[id := doc]> (courses (db w))) (db w)) w))
  end.

(** Removing a loaded document: the pre-remove hook, then the deletion. *)
Definition remove (f : Faults) (id : ObjectId) (this : CourseDoc.t)
    (w : World) : World :=
  let w1 := pre_remove f this w in
  set_db (set_courses (delete id (courses (db w1))) (db w1)) w1.

End Course.

(** ** [models/Review.js] *)

Module Review.

(** [ReviewSchema.statics.getAverageRating]. *)
Definition getAverageRating (f : Faults) (bootcampId : ObjectId)
    (w : World) : Promise :=
  match aggregate_fault f with
  | Some e => Rejected e w
  | None =>
    let obj := aggregate ReviewDoc.bootcamp ReviewDoc.rating bootcampId
                 (reviews (db w)) in
    match obj with
    | (_, averageRating) :: _ =>
      match update_fault f with
      | Some error => Resolved (console_log (LogError error) w)
      | None =>
        Resolved (set_db
          (Bootcamp_findByIdAndUpdate bootcampId
             (Bootcamp.set_averageRating averageRating) (db w)) w)
      end
    | [] =>
      Resolved (console_log
        (LogText ("No ratings found for bootcamp " +:+ bootcampId)) w)
    end
  end.

(** [ReviewSchema.post("save", ...)]. *)
Definition post_save (f : Faults) (this : ReviewDoc.t) (w : World) : World :=
  fire_and_forget (getAverageRating f (ReviewDoc.bootcamp this) w).

(** [ReviewSchema.pre("remove", ...)]. *)
Definition pre_remove (f : Faults) (this : ReviewDoc.t) (w : World) : World :=
  fire_and_forget (getAverageRating f (ReviewDoc.bootcamp this) w).

(** The fields of a review a client sends; a key left out is [None]. *)
Record Input := mkInput {
  title : option string;
  text : option string;
  rating : option Qc
}.

(** The validators of the schema, path by path: [title] (trimmed,
    required, at most 100 characters), [text] (required), [rating]
    (required, from 1 to 10). *)
Definition validate_title `{Platform} (v : option string) : list string :=
  match v with
  | None => ["Please add a title for the review"]
  | Some s =>
    if decide (trim s = EmptyString) then ["Please add a title for the review"]
    else if decide (100 < String.length (trim s))%nat
         then [builtin_message "maxlength" "title"]
         else []
  end.

Definition validate_text (v : option string) : list string :=
  match v with
  | None => ["Please add some text"]
  | Some s => if decide (s = EmptyString) then ["Please add some text"] else []
  end.

Definition validate_rating `{Platform} (v : option Qc) : list string :=
  match v with
  | None => ["Please add a rating between 1 and 10"]
  | Some q =>
    if Qclt_le_dec q (Num.ofZ 1) then [builtin_message "min" "rating"]
    else if Qclt_le_dec (Num.ofZ 10) q then [builtin_message "max" "rating"]
    else []
  end.

Definition validate `{Platform} (i : Input) : list string :=
  validate_title (title i) ++ validate_text (text i)
    ++ validate_rating (rating i).

(** The document built from the input and the two references the
    controller sets. *)
Definition to_doc (i : Input) (bootcamp user : ObjectId) : ReviewDoc.t :=
  ReviewDoc.mk (trim (default EmptyString (title i))) (default EmptyString (text i))
    (default (Num.ofZ 0) (rating i)) bootcamp user.

(** [ReviewSchema.index({ bootcamp: 1, user: 1 }, { unique: true })]:
    does the collection hold a review of the same bootcamp by the same
    user? *)
Definition index_taken (bootcamp user : ObjectId)
    (rs : gmap ObjectId ReviewDoc.t) : bool :=
  bool_decide (map_Exists
    (λ _ r, ReviewDoc.bootcamp r = bootcamp ∧ ReviewDoc.user r = user) rs).

(** The insertion of a document under the unique indexes. *)
Definition insertOne (id : ObjectId) (doc : ReviewDoc.t) (w : World)
    : Promise :=
  match reviews (db w) !! id with
  | Some _ => Rejected (DuplicateKeyError "_id_") w
  | None =>
    if index_taken (ReviewDoc.bootcamp doc) (ReviewDoc.user doc)
         (reviews (db w))
    then Rejected (DuplicateKeyError "bootcamp_1_user_1") w
    else Resolved
           (set_db (set_reviews (<[id := doc]> (reviews (db w))) (db w)) w)
  end.

(** [Review.create(req.body)]: validation, insertion, post-save hook. *)
Definition create `{Platform} (f : Faults) (id : ObjectId) (i : Input)
    (bootcamp user : ObjectId) (w : World) : Promise :=
  match validate i with
  | (_ :: _) as msgs => Rejected (ValidationError msgs) w
  | [] =>
    let doc := to_doc i bootcamp user in
    match insertOne id doc w with
    | Rejected e w' => Rejected e w'
    | Resolved w' => Resolved (post_save f doc w')
    end
  end.

(** Removing a loaded document: the pre-remove hook, then the deletion. *)
Definition remove (f : Faults) (id : ObjectId) (this : ReviewDoc.t)
    (w : World) : World :=
  let w1 := pre_remove f this w in
  set_db (set_reviews (delete id (reviews (db w1))) (db w1)) w1.

End Review.

(** ** Sequences of child mutations *)

Inductive Event :=
| CourseCreated (f : Faults) (id : ObjectId) (doc : CourseDoc.t)
| CourseRemoved (f : Faults) (id : ObjectId)
| ReviewCreated (f : Faults) (id : ObjectId) (i : Review.Input)
    (bootcamp user : ObjectId)
| ReviewRemoved (f : Faults) (id : ObjectId).

(** A mutation that is refused leaves the process as the refusal left it;
    the removal of a document that is not there does nothing. *)
Definition settle (p : Promise) : World :=
  match p with
  | Resolved w => w
  | Rejected _ w => w
  end.

Definition step `{Platform} (w : World) (e : Event) : World :=
  match e with
  | CourseCreated f id doc => settle (Course.create f id doc w)
  | CourseRemoved f id =>
    match courses (db w) !! id with
    | Some this => Course.remove f id this w
    | None => w
    end
  | ReviewCreated f id i bootcamp user =>
    settle (Review.create f id i bootcamp user w)
  | ReviewRemoved f id =>
    match reviews (db w) !! id with
    | Some this => Review.remove f id this w
    | None => w
    end
  end.

Definition run `{Platform} (es : list Event) (w : World) : World :=
  foldl step w es.

(** The children that reference a parent. *)
Definition courses_of (p : ObjectId) (d : Db) : list CourseDoc.t :=
  filter (λ c, CourseDoc.bootcamp c = p) (snd <$> map_to_list (courses d)).

Definition reviews_of (p : ObjectId) (d : Db) : list ReviewDoc.t :=
  filter (λ r, ReviewDoc.bootcamp r = p) (snd <$> map_to_list (reviews d)).


(** ** Requests and responses *)

Record PageRef := mkPageRef {
  page : Z;
  limit : Z
}.

(** [pagination]: a side that does not apply has no key. *)
Record Pagination := mkPagination {
  next : option PageRef;
  prev : option PageRef
}.

Inductive Payload :=
| PNull
| PEmptyObject
| PUser (id : ObjectId) (u : User.t)
| PReview (id : ObjectId) (r : ReviewDoc.t).

(** The JSON bodies the handlers send. *)
Inductive Body :=
| BError (error : Msg)
| BData (data : Payload)
| BList (count : nat) (pagination : Pagination) (data : list Payload)
| BNothing.

Record Response := mkResponse {
  status : Z;
  body : Body
}.

Definition success (r : Response) : option bool :=
  match body r with
  | BError _ => Some false
  | BData _ | BList _ _ _ => Some true
  | BNothing => None
  end.

Definition error (r : Response) : option Msg :=
  match body r with
  | BError m => Some m
  | _ => None
  end.

Definition data (r : Response) : option Payload :=
  match body r with
  | BData d => Some d
  | _ => None
  end.

(** The request and response objects a middleware chain hands on: what
    the client sent, and what earlier middleware attached ([req.user],
    [res.advancedResults]). [cookie_token] is the named cookie where the
    endpoint reads it. [B] is the type of the parsed body. *)
Record Ctx (B : Type) := mkCtx {
  params_id : string;
  authorization : option string;
  cookie_token : option string;
  query : list (string * string);
  req_body : B;
  user : option (ObjectId * User.t);
  advancedResults_ : option Body
}.
Arguments mkCtx {B}.
Arguments params_id {B}.
Arguments authorization {B}.
Arguments cookie_token {B}.
Arguments query {B}.
Arguments req_body {B}.
Arguments user {B}.
Arguments advancedResults_ {B}.

Definition set_user {B} (u : ObjectId * User.t) (c : Ctx B) : Ctx B :=
  mkCtx (params_id c) (authorization c) (cookie_token c) (query c)
    (req_body c) (Some u) (advancedResults_ c).

Definition set_advancedResults {B} (b : Body) (c : Ctx B) : Ctx B :=
  mkCtx (params_id c) (authorization c) (cookie_token c) (query c)
    (req_body c) (user c) (Some b).

(** How a middleware or handler ends: a response was sent, [next()] was
    called, [next(err)] was called, or it threw (for an [async] function:
    its promise rejected). *)
Inductive Step (B : Type) :=
| Sent (r : Response) (w : World)
| Next (c : Ctx B) (w : World)
| NextErr (e : Err.t) (w : World)
| Threw (e : Err.t) (w : World).
Arguments Sent {B}.
Arguments Next {B}.
Arguments NextErr {B}.
Arguments Threw {B}.

Definition Handler (B : Type) := Ctx B → World → Step B.

(** Modelled from the spec: [middleware/async.js] is not among the
    sources; this is the wrapper as the controllers use it, so that a
    failure reaches the single boundary translator: the rejection of the
    wrapped function is passed to [next]. *)
Definition asyncHandler {B} (fn : Handler B) : Handler B :=
  λ c w,
    match fn c w with
    | Threw e w' => NextErr e w'
    | r => r
    end.

(** ** [middleware/error.js] *)

(** [x || d] on a status code: [undefined] and [0] are falsy. *)
Definition status_or (x : option Z) (d : Z) : Z :=
  match x with
  | Some c => if decide (c = 0) then d else c
  | None => d
  end.

(** [x || d] on a message: the empty string is falsy, an array is not. *)
Definition message_or (m : Msg) (d : string) : Msg :=
  match m with
  | MsgText EmptyString => MsgText d
  | _ => m
  end.

Definition errorHandler (error : Err.t) (w : World) : Response * World :=
  (* let errors = { ...error }; errors.message = error.message *)
  let errors := (Err.statusCode error, Err.message error) in
  let w := console_log (LogError error) w in
  let errors :=
    if decide (Err.name error = "CastError")
    then (Some 404, MsgText "Resource not found")
    else errors in
  let errors :=
    if decide (Err.code error = Some 11000)
    then (Some 400, MsgText "Duplicate field value entered")
    else errors in
  let errors :=
    if decide (Err.name error = "ValidationError")
    then (Some 400, MsgList (Err.errors error))
    else errors in
  (mkResponse (status_or (fst errors) 500)
     (BError (message_or (snd errors) "Server Error")), w).

(** A chain of middleware under the application's error handler
    ([app.use(errorHandler)] after the routers). A chain that ends without
    a response, and a throw that no wrapper caught, send nothing from this
    code: the second is a rejection nobody handles. *)
Fixpoint chain {B} (hs : list (Handler B)) (c : Ctx B) (w : World)
    : option Response * World :=
  match hs with
  | [] => (None, w)
  | h :: hs' =>
    match h c w with
    | Sent r w' => (Some r, w')
    | Next c' w' => chain hs' c' w'
    | NextErr e w' =>
      let '(r, w'') := errorHandler e w' in (Some r, w'')
    | Threw e w' => (None, unhandledRejection e w')
    end
  end.

(** ** Access control ([middleware/auth.js]) *)

(** Modelled from the spec: the [Unauthorized] outcome of the access
    control middleware. *)
Definition not_authorized : Err.t :=
  ErrorResponse (MsgText "Not authorized to access this route") 401.

(** Modelled from the spec: the token extraction of [protect]. The bearer
    token of a request is the text after [Bearer ] in the authorization
    header, or else the named cookie. *)
Definition extract_token {B} (c : Ctx B) : option string :=
  match authorization c with
  | Some h =>
    if String.prefix "Bearer " h
    then Some (String.substring 7 (String.length h - 7) h)
    else cookie_token c
  | None => cookie_token c
  end.

(** Modelled from the spec: [protect] of [middleware/auth.js], which is
    not among the sources. A missing, invalid or expired token, and a
    subject that no longer resolves to an account, fail with 401 and
    "Not authorized to access this route"; on success the resolved account
    is attached to the request. *)
Definition protect `{Platform} {B} : Handler B :=
  λ c w,
    match extract_token c with
    | None => NextErr not_authorized w
    | Some token =>
      match jwt_verify token with
      | Subject id =>
        match users (db w) !! id with
        | Some u => Next (set_user (id, u) c) w
        | None => NextErr not_authorized w
        end
      | Expired | Invalid => NextErr not_authorized w
      end
    end.

(** Modelled from the spec: [authorize] of [middleware/auth.js], which is
    not among the sources. An authenticated account whose role is not in
    the allow-list fails with 403 and
    "User role <role> is not authorized to access this route". *)
Definition authorize {B} (roles : list string) : Handler B :=
  λ c w,
    match user c with
    | None => NextErr not_authorized w
    | Some (_, u) =>
      if bool_decide (User.role u ∈ roles) then Next c w
      else NextErr
             (ErrorResponse
                (MsgText ("User role " +:+ User.role u +:+
                          " is not authorized to access this route")) 403) w
    end.

(** Modelled from the spec: the ownership gate of the update and delete
    handlers of the controllers that are not among the sources. The
    account must be the owner of the resource or hold the administrator
    role ([admin] in [routes/users.js]). *)
Definition owns_or_admin (account : ObjectId * User.t) (owner : ObjectId)
    : bool :=
  bool_decide (owner = account.1) || bool_decide (User.role account.2 = "admin").

(** ** Listing ([middleware/advancedResults.js]) *)

Inductive Op := OpEq | OpGt | OpGte | OpLt | OpLte | OpIn.

(** Modelled from the spec: the collection store a listing depends on.
    It says whether a document satisfies one comparison, orders documents
    for a sort key list, and projects a document on a field list. *)
Class Store (D : Type) := {
  holds : D → string → Op → string → bool;
  sort_by : option string → list D → list D;
  select_fields : option string → D → D
}.

Section Listing.
Context {D : Type} `{Store D}.

(** Modelled from the spec: the control keys, reserved and stripped
    before the filter is built. *)
Definition control_keys : list string := ["select"; "sort"; "page"; "limit"].

(** The value of a key of the query string. *)
Definition lookup_query (k : string) (q : list (string * string))
    : option string :=
  (λ found, found.2.2) <$> list_find (λ kv, kv.1 = k) q.

(** Modelled from the spec: the suffix pattern [field[op]]. The field of
    a key runs up to the first bracket; the rest is what follows it. *)
Fixpoint split_bracket (s : string) : string * option string :=
  match s with
  | EmptyString => (EmptyString, None)
  | String a s' =>
    if decide (a = "["%char) then (EmptyString, Some s')
    else let '(f, r) := split_bracket s' in (String a f, r)
  end.

(** Modelled from the spec: the recognised comparison suffixes. *)
Definition operator_of (suffix : string) : option Op :=
  if decide (suffix = "gt]") then Some OpGt
  else if decide (suffix = "gte]") then Some OpGte
  else if decide (suffix = "lt]") then Some OpLt
  else if decide (suffix = "lte]") then Some OpLte
  else if decide (suffix = "in]") then Some OpIn
  else None.

(** Modelled from the spec: one query parameter as a comparison. A
    recognised suffix gives its operator on the field; anything else is
    an equality on the whole key. *)
Definition compile_filter (kv : string * string) : string * Op * string :=
  match split_bracket kv.1 with
  | (field, Some suffix) =>
    match operator_of suffix with
    | Some op => (field, op, kv.2)
    | None => (kv.1, OpEq, kv.2)
    end
  | (_, None) => (kv.1, OpEq, kv.2)
  end.

(** Modelled from the spec: every key that is not a control key is a
    field filter. *)
Definition filters (q : list (string * string))
    : list (string * Op * string) :=
  compile_filter <$> filter (λ kv, kv.1 ∉ control_keys) q.

(** Modelled from the spec: a document is listed when it satisfies every
    filter. *)
Definition matches (fs : list (string * Op * string)) (d : D) : bool :=
  forallb (λ f, holds d f.1.1 f.1.2 f.2) fs.

(** Modelled from the spec: a well-formed numeric input is a decimal
    numeral; anything else is malformed. *)
Fixpoint digits (s : string) (acc : Z) : option Z :=
  match s with
  | EmptyString => Some acc
  | String a s' =>
    match Ascii.is_nat a with
    | Some d => digits s' (10 * acc + Z.of_nat d)
    | None => None
    end
  end.

Definition parse_number (s : string) : option Z :=
  if decide (s = EmptyString) then None else digits s 0.

(** Modelled from the spec: [page] (default 1) and [limit] (default 25);
    a malformed value falls back to the default. *)
Definition page_of (q : list (string * string)) : Z :=
  default 1 (lookup_query "page" q ≫= parse_number).

Definition limit_of (q : list (string * string)) : Z :=
  default 25 (lookup_query "limit" q ≫= parse_number).

(** Modelled from the spec: the navigation metadata of the Query
    Compiler and Pager. [previous] is there iff [page > 1], [next] iff
    [skip + take < total]; a side that does not apply is omitted. *)
Definition navigation (page limit total : Z) : Pagination :=
  let skip := (page - 1) * limit in
  let take := limit in
  mkPagination
    (if decide (skip + take < total)
     then Some (mkPageRef (page + 1) limit) else None)
    (if decide (1 < page)
     then Some (mkPageRef (page - 1) limit) else None).

(** Modelled from the spec: [advancedResults] of
    [middleware/advancedResults.js], which is not among the sources.
    The control keys are stripped, the rest filters; the total is
    counted over the filter; the window is [skip] and [take] into the
    sorted matches; the result is attached to the response. *)
Definition advancedResults {B} (coll : World → list D)
    (payload : D → Payload) : Handler B :=
  λ c w,
    let q := query c in
    let found := filter (λ d, matches (filters q) d = true) (coll w) in
    let total := Z.of_nat (length found) in
    let page := page_of q in
    let limit := limit_of q in
    let skip := (page - 1) * limit in
    let results :=
      select_fields (lookup_query "select" q) <$>
        take (Z.to_nat limit)
          (drop (Z.to_nat skip) (sort_by (lookup_query "sort" q) found)) in
    Next (set_advancedResults
            (BList (length results) (navigation page limit total)
               (payload <$> results)) c) w.

End Listing.

(** ** [controllers/users.js] *)

(** [models/User.js] is not among the sources: what creating a user from
    a body and applying a body to a stored user give (a fresh identity
    and the document, the updated document, or the error of a failed
    validation or unique index) is taken as given. *)
Class UserModel (B : Type) := {
  user_create : B → gmap ObjectId User.t → Err.t + (ObjectId * User.t);
  user_update : B → ObjectId → User.t → gmap ObjectId User.t → Err.t + User.t
}.

(** [User.findById(id)]: the cast of the identifier fails with a
    [CastError]; an identifier that resolves to nothing gives [null]. *)
Definition User_findById `{Platform} (id : string) (w : World)
    : Err.t + option (ObjectId * User.t) :=
  match castObjectId id with
  | None => inl (CastError id "_id")
  | Some oid => inr ((λ u, (oid, u)) <$> users (db w) !! oid)
  end.

Definition payload_of_user (found : option (ObjectId * User.t)) : Payload :=
  match found with
  | Some (id, u) => PUser id u
  | None => PNull
  end.

Section UsersController.
Context `{Platform} {B : Type} `{UserModel B}.

Definition getUsers : Handler B :=
  asyncHandler (λ c w,
    Sent (mkResponse 200 (default BNothing (advancedResults_ c))) w).

Definition getUser : Handler B :=
  asyncHandler (λ c w,
    match User_findById (params_id c) w with
    | inl e => Threw e w
    | inr user => Sent (mkResponse 200 (BData (payload_of_user user))) w
    end).

Definition createUser : Handler B :=
  asyncHandler (λ c w,
    match user_create (req_body c) (users (db w)) with
    | inl e => Threw e w
    | inr (id, u) =>
      Sent (mkResponse 201 (BData (PUser id u)))
        (set_db (set_users (<[id := u]> (users (db w))) (db w)) w)
    end).

Definition updateUser : Handler B :=
  asyncHandler (λ c w,
    match User_findById (params_id c) w with
    | inl e => Threw e w
    | inr None => Sent (mkResponse 200 (BData PNull)) w
    | inr (Some (id, u)) =>
      match user_update (req_body c) id u (users (db w)) with
      | inl e => Threw e w
      | inr u' =>
        Sent (mkResponse 200 (BData (PUser id u')))
          (set_db (set_users (<[id := u']> (users (db w))) (db w)) w)
      end
    end).

Definition deleteUser : Handler B :=
  asyncHandler (λ c w,
    match User_findById (params_id c) w with
    | inl e => Threw e w
    | inr None =>
      NextErr (ErrorResponse (MsgText "Resource not found") 404) w
    | inr (Some (id, _)) =>
      Sent (mkResponse 200 (BData PEmptyObject))
        (set_db (set_users (delete id (users (db w))) (db w)) w)
    end).

(** *** [routes/users.js] *)

Inductive UsersRoute :=
| GET_users
| POST_users
| GET_user
| PUT_user
| DELETE_user.

Context `{Store (ObjectId * User.t)}.

Definition users_collection (w : World) : list (ObjectId * User.t) :=
  map_to_list (users (db w)).

Definition usersRouter (r : UsersRoute) : list (Handler B) :=
  protect :: authorize ["admin"] ::
  match r with
  | GET_users =>
    [advancedResults users_collection (λ d, PUser d.1 d.2); getUsers]
  | POST_users => [createUser]
  | GET_user => [getUser]
  | PUT_user => [updateUser]
  | DELETE_user => [deleteUser]
  end.

End UsersController.

(** ** Reviews: update and delete ([controllers/reviews.js]) *)

Section ReviewsController.
Context `{Platform}.

(** Modelled from the spec: an update runs the validators of the schema
    on the fields it sends. *)
Definition validate_update (i : Review.Input) : list string :=
  match Review.title i with
  | Some _ => Review.validate_title (Review.title i)
  | None => []
  end ++
  match Review.text i with
  | Some _ => Review.validate_text (Review.text i)
  | None => []
  end ++
  match Review.rating i with
  | Some _ => Review.validate_rating (Review.rating i)
  | None => []
  end.

(** Modelled from the spec: the fields sent replace the stored ones; the
    parent and the owner stay. *)
Definition apply_update (i : Review.Input) (r : ReviewDoc.t) : ReviewDoc.t :=
  ReviewDoc.mk
    (from_option trim (ReviewDoc.title r) (Review.title i))
    (default (ReviewDoc.text r) (Review.text i))
    (default (ReviewDoc.rating r) (Review.rating i))
    (ReviewDoc.bootcamp r) (ReviewDoc.user r).

(** Modelled from the spec: the lookup and the ownership gate that the
    update and delete handlers of [controllers/reviews.js] share; the
    file is not among the sources. A malformed identifier is a
    [CastError]; an identifier that resolves to nothing is 404; an
    account that neither owns the review nor is administrator is 401
    with "Not authorized to access this route". *)
Definition owned_review (c : Ctx Review.Input) (w : World)
    : Err.t * bool + ObjectId * ReviewDoc.t :=
  match castObjectId (params_id c) with
  | None => inl (CastError (params_id c) "_id", true)
  | Some id =>
    match reviews (db w) !! id with
    | None =>
      inl (ErrorResponse
             (MsgText ("No review with the id of " +:+ params_id c)) 404,
           false)
    | Some r =>
      match user c with
      | None => inl (not_authorized, false)
      | Some account =>
        if owns_or_admin account (ReviewDoc.user r) then inr (id, r)
        else inl (not_authorized, false)
      end
    end
  end.

(** A failed lookup or gate ends the handler: a cast failure is thrown by
    the query, the other failures are passed to [next]. *)
Definition refuse (e : Err.t * bool) (w : World) : Step Review.Input :=
  if e.2 then Threw e.1 w else NextErr e.1 w.

(** Modelled from the spec: [updateReview]. The fields sent replace the
    stored ones under the validators of the schema; the mutation
    schedules the recomputation for the parent. *)
Definition updateReview (f : Faults) : Handler Review.Input :=
  asyncHandler (λ c w,
    match owned_review c w with
    | inl e => refuse e w
    | inr (id, r) =>
      match validate_update (req_body c) with
      | (_ :: _) as msgs => Threw (ValidationError msgs) w
      | [] =>
        let r' := apply_update (req_body c) r in
        Sent (mkResponse 200 (BData (PReview id r')))
          (Review.post_save f r'
             (set_db
                (set_reviews (<[id := r']> (reviews (db w))) (db w)) w))
      end
    end).

(** Modelled from the spec: [deleteReview]. *)
Definition deleteReview (f : Faults) : Handler Review.Input :=
  asyncHandler (λ c w,
    match owned_review c w with
    | inl e => refuse e w
    | inr (id, r) =>
      Sent (mkResponse 200 (BData PEmptyObject)) (Review.remove f id r w)
    end).

(** Modelled from the spec: the update and delete routes of a review,
    behind [protect]. *)
Inductive ReviewsRoute :=
| PUT_review
| DELETE_review.

Definition reviewsRouter (f : Faults) (r : ReviewsRoute)
    : list (Handler Review.Input) :=
  protect ::
  match r with
  | PUT_review => [updateReview f]
  | DELETE_review => [deleteReview f]
  end.

End ReviewsController.


(** ** The words of the specification *)

(** [v] is [m] rounded up to the nearest multiple of 10. *)
Definition ceiling_to_10 (m v : Qc) : Prop :=
  (∃ k : Z, v = Num.ofZ (10 * k)) ∧ (m ≤ v)%Qc ∧ (v - Num.ofZ 10 < m)%Qc.

(** [m] is the arithmetic mean of the values of [l]. *)
Definition arithmetic_mean (l : list Qc) (m : Qc) : Prop :=
  (m * Num.ofZ (Z.of_nat (length l)))%Qc = Num.sum l.

(** At most one review for a bootcamp by a user. *)
Definition one_review_per_pair (rs : gmap ObjectId ReviewDoc.t) : Prop :=
  ∀ i j r1 r2,
    rs !! i = Some r1 → rs !! j = Some r2 →
    ReviewDoc.bootcamp r1 = ReviewDoc.bootcamp r2 →
    ReviewDoc.user r1 = ReviewDoc.user r2 →
    i = j.

(** The aggregate fields of a parent, as a reader of the database sees
    them: [None] when there is no such parent, [Some None] when the field
    is absent. *)
Definition averageCost_of (p : ObjectId) (w : World) : option (option Qc) :=
  Bootcamp.averageCost <$> bootcamps (db w) !! p.

Definition averageRating_of (p : ObjectId) (w : World) : option (option Qc) :=
  Bootcamp.averageRating <$> bootcamps (db w) !! p.

(** ** What the collections keep *)

(** The ratings of the stored reviews respect the bounds of the schema
    ([min: 1], [max: 10]). *)
Definition ratings_in_range (rs : gmap ObjectId ReviewDoc.t) : Prop :=
  ∀ id r, rs !! id = Some r →
    (Num.ofZ 1 ≤ ReviewDoc.rating r)%Qc ∧ (ReviewDoc.rating r ≤ Num.ofZ 10)%Qc.


(** Two states of a parent that differ at most in the aggregates: the
    parent is there in both or in neither, with the same name and owner. *)
Definition same_parent (o o' : option Bootcamp.t) : Prop :=
  match o, o' with
  | None, None => True
  | Some b, Some b' =>
    Bootcamp.name b' = Bootcamp.name b ∧ Bootcamp.user b' = Bootcamp.user b
  | _, _ => False
  end.

(** ** A small deployment

    Concrete libraries, accounts and documents on which the statements
    below are exercised. *)

Module Demo.

Definition is_hex (a : ascii) : bool :=
  let n := nat_of_ascii a in
  ((48 <=? n) && (n <=? 57) || (97 <=? n) && (n <=? 102)
   || (65 <=? n) && (n <=? 70))%nat.

Fixpoint all_hex (s : string) : bool :=
  match s with
  | EmptyString => true
  | String a s' => is_hex a && all_hex s'
  end.

Definition admin_id : ObjectId := "5c8a1d5b0190b214360dc040".
Definition greg_id : ObjectId := "5c8a1d5b0190b214360dc031".
Definition sasha_id : ObjectId := "5c8a1d5b0190b214360dc032".
Definition camp_id : ObjectId := "5d725a1b7b292f5f8ceff788".
Definition course_id : ObjectId := "5d725cfec4ded7bcb480eaa5".
Definition course2_id : ObjectId := "5d725cfec4ded7bcb480eaa6".
Definition review_id : ObjectId := "5d7a514b5d2c12c7449be020".
Definition review2_id : ObjectId := "5d7a514b5d2c12c7449be021".
Definition missing_id : ObjectId := "64b0c0ffee0000000000beef".

Definition platform : Platform := {|
  castObjectId s :=
    if bool_decide (String.length s = 24%nat) && all_hex s
    then Some s else None;
  jwt_verify t :=
    if decide (t = "admin.jwt") then Subject admin_id
    else if decide (t = "greg.jwt") then Subject greg_id
    else if decide (t = "sasha.jwt") then Subject sasha_id
    else if decide (t = "old.jwt") then Expired
    else Invalid;
  builtin_message kind path :=
    "Path `" +:+ path +:+ "` fails the validator " +:+ kind
|}.

Definition user_model : UserModel unit := {|
  user_create _ _ := inl (ValidationError ["Please add a password"]);
  user_update _ _ u _ := inr u
|}.

Definition user_store : Store (ObjectId * User.t) := {|
  holds _ _ _ _ := true;
  sort_by _ l := l;
  select_fields _ d := d
|}.

Definition admin : User.t := User.mk "Admin" "admin@gmail.com" "admin" "#".
Definition greg : User.t := User.mk "Greg Harris" "greg@gmail.com" "user" "#".
Definition sasha : User.t :=
  User.mk "Sasha Ryan" "sasha@gmail.com" "publisher" "#".

Definition camp : Bootcamp.t := Bootcamp.mk "Devworks" sasha_id None None.

Definition course (tuition : Z) : CourseDoc.t :=
  CourseDoc.mk "Front End" "HTML and CSS" "8" (Num.ofZ tuition) camp_id
    sasha_id.

Definition review : ReviewDoc.t :=
  ReviewDoc.mk "Great job" "I learned a lot" (Num.ofZ 6) camp_id greg_id.

Definition review_input (rating : Z) : Review.Input :=
  Review.mkInput (Some "Well done") (Some "Excellent course")
    (Some (Num.ofZ rating)).

Definition accounts : gmap ObjectId User.t :=
  <[admin_id := admin]> (<[greg_id := greg]> (<[sasha_id := sasha]> ∅)).

(** The parent without children. *)
Definition empty_world : World :=
  mkWorld (mkDb accounts {[camp_id := camp]} ∅ ∅) [] true [] None.

(** The parent with two courses, of 12 and 18, and one review. *)
Definition world : World :=
  mkWorld
    (mkDb accounts {[camp_id := camp]}
       (<[course_id := course 12]> {[course2_id := course 18]})
       {[review_id := review]})
    [] true [] None.


Definition review_comes_and_goes : list Event :=
  [ReviewCreated healthy review_id (review_input 6) camp_id greg_id;
   ReviewRemoved healthy review_id].

Definition request {B} (id : string) (token : string) (b : B) : Ctx B :=
  mkCtx id (Some ("Bearer " +:+ token)) None [] b None None.

(** [GET /users?page=1&limit=2] and [GET /users?page=2&limit=2]. *)
Definition listing_request (page : string) : Ctx unit :=
  mkCtx EmptyString (Some "Bearer admin.jwt") None
    [("page", page); ("limit", "2")] tt None None.

(** A second bootcamp and a course of it; a model of the users that
    accepts every body, storing it as the user; a storage layer whose
    updates fail; some errors. *)
Definition other_camp_id : ObjectId := "5d713995b721c3bb38c1f5d0".
Definition course3_id : ObjectId := "5d725cfec4ded7bcb480eaa7".
Definition new_user_id : ObjectId := "5c8a1d5b0190b214360dc033".

Definition other_course : CourseDoc.t :=
  CourseDoc.mk "Full Stack" "Node and React" "12" (Num.ofZ 10000)
    other_camp_id sasha_id.

Definition open_user_model : UserModel User.t := {|
  user_create b _ := inr (new_user_id, b);
  user_update b _ _ _ := inr b
|}.

Definition natalie : User.t :=
  User.mk "Natalie Jones" "natalie@gmail.com" "user" "#".

Definition failing_updates : Faults :=
  mkFaults None (Some (Err.mk "MongoNetworkError"
                         (MsgText "connection closed") None None [])).

Definition type_error : Err.t :=
  Err.mk "TypeError" (MsgText "Cannot read properties of undefined")
    None None [].

Definition cast_error_with_code : Err.t :=
  Err.mk "CastError" (MsgText "Cast to ObjectId failed") (Some 11000)
    (Some 404) [].

End Demo.

(** * Properties *)

Section NumFacts.
Local Open Scope Qc_scope.

Lemma ofZ_this (z : Z) : (this (Num.ofZ z) == inject_Z z)%Q.
Proof. unfold Num.ofZ. simpl. apply Qred_correct. Qed.

Lemma ofZ_mult (a b : Z) : Num.ofZ a * Num.ofZ b = Num.ofZ (a * b).
Proof.
  apply Qc_is_canon. unfold Num.ofZ. simpl.
  rewrite !Qred_correct. rewrite inject_Z_mult. reflexivity.
Qed.

Lemma ofZ_plus (a b : Z) : Num.ofZ a + Num.ofZ b = Num.ofZ (a + b).
Proof.
  apply Qc_is_canon. unfold Num.ofZ. simpl.
  rewrite !Qred_correct. rewrite inject_Z_plus. reflexivity.
Qed.

Lemma ofZ_inj (a b : Z) : Num.ofZ a = Num.ofZ b → a = b.
Proof.
  intros E. apply (f_equal this) in E.
  assert (E' : (inject_Z a == inject_Z b)%Q).
  { rewrite <- !ofZ_this. rewrite E. reflexivity. }
  unfold Qeq in E'. simpl in E'. lia.
Qed.

(** [Math.ceil(x / 10) * 10] is the least multiple of 10 that is not
    below [x]. *)
Lemma ceil10_bounds (x : Qc) :
  let v := Num.ceil (x / Num.ofZ 10) * Num.ofZ 10 in
  x ≤ v ∧ v - Num.ofZ 10 < x.
Proof.
  intros v. subst v. unfold Num.ceil.
  set (k := Qceiling (this (x / Num.ofZ 10)%Qc)).
  assert (Hle := Qle_ceiling (this (x / Num.ofZ 10)%Qc)).
  assert (Hlt := Qceiling_lt (this (x / Num.ofZ 10)%Qc)).
  fold k in Hle, Hlt.
  assert (Hdiv : (this (x / Num.ofZ 10) == this x / inject_Z 10)%Q).
  { unfold Qcdiv, Qcmult, Qcinv. simpl. rewrite !Qred_correct. reflexivity. }
  assert (Hle' : (this x / inject_Z 10 <= inject_Z k)%Q).
  { rewrite <- Hdiv. exact Hle. }
  assert (Hlt' : (inject_Z (k - 1) < this x / inject_Z 10)%Q).
  { rewrite <- Hdiv. exact Hlt. }
  clear Hle Hlt. rename Hle' into Hle. rename Hlt' into Hlt.
  split.
  - unfold Qcle. simpl. rewrite !Qred_correct.
    apply (Qmult_le_compat_r _ _ (inject_Z 10)) in Hle; [|discriminate].
    assert (E : (this x / inject_Z 10 * inject_Z 10 == this x)%Q) by field.
    rewrite E in Hle. exact Hle.
  - unfold Qclt, Qcminus, Qcplus, Qcopp. simpl. rewrite !Qred_correct.
    apply (Qmult_lt_compat_r _ _ (inject_Z 10)) in Hlt; [|reflexivity].
    assert (E : (this x / inject_Z 10 * inject_Z 10 == this x)%Q) by field.
    rewrite E in Hlt.
    assert (E' : (inject_Z k * inject_Z 10 + - inject_Z 10
                  == inject_Z (k - 1) * inject_Z 10)%Q).
    { unfold Qeq. simpl. lia. }
    rewrite E'. exact Hlt.
Qed.

Lemma sum_cons (x : Qc) (l : list Qc) : Num.sum (x :: l) = x + Num.sum l.
Proof. reflexivity. Qed.

(** [$avg] is the arithmetic mean: times the number of values it gives
    their sum. *)
Lemma avg_is_mean (l : list Qc) :
  l ≠ [] → Num.avg l * Num.ofZ (Z.of_nat (length l)) = Num.sum l.
Proof.
  intros Hl. unfold Num.avg.
  assert (Hn : Num.ofZ (Z.of_nat (length l)) ≠ 0).
  { intros E. change 0 with (Num.ofZ 0) in E. apply ofZ_inj in E.
    destruct l; [done | simpl in E; lia]. }
  field. exact Hn.
Qed.
End NumFacts.

(** ** The pipeline *)

Section PipelineFacts.
Context {D : Type} (key : D → ObjectId) (field : D → Qc).

Lemma filter_same_key (id : ObjectId) (ds : list D) :
  Forall (λ d, key d = id) ds → filter (λ d, key d = id) ds = ds.
Proof.
  induction 1 as [|d ds Hd _ IH]; [done|].
  rewrite filter_cons_True by done. by rewrite IH.
Qed.

Lemma remove_dups_same_key (id : ObjectId) (ds : list D) :
  ds ≠ [] → Forall (λ d, key d = id) ds → remove_dups (key <$> ds) = [id].
Proof.
  intros Hne Hall. induction Hall as [|d ds Hd Hall IH]; [done|].
  simpl. destruct ds as [|d' ds'].
  - simpl. by rewrite Hd.
  - destruct (decide_rel _ _ _) as [_|Hnin]; [by apply IH|].
    exfalso. apply Hnin. rewrite Hd. apply list_elem_of_fmap. exists d'.
    split; [|left]. by inversion Hall.
Qed.

Lemma stage_match_same_key (id : ObjectId) (docs : list D) :
  Forall (λ d, key d = id) (stage_match key id docs).
Proof.
  apply Forall_forall. intros d Hd.
  unfold stage_match in Hd. by apply list_elem_of_filter in Hd as [? _].
Qed.

(** With a matching document the pipeline gives one group: the mean of
    the field over the matching documents. *)
Lemma aggregate_some (id : ObjectId) (coll : gmap ObjectId D) :
  stage_match key id (snd <$> map_to_list coll) ≠ [] →
  aggregate key field id coll =
    [(id, Num.avg (field <$> stage_match key id (snd <$> map_to_list coll)))].
Proof.
  intros Hne. unfold aggregate, stage_group_avg.
  pose proof (stage_match_same_key id (snd <$> map_to_list coll)) as Hall.
  rewrite (remove_dups_same_key id _ Hne Hall). simpl.
  by rewrite (filter_same_key id _ Hall).
Qed.

(** Without one it gives no group. *)
Lemma aggregate_none (id : ObjectId) (coll : gmap ObjectId D) :
  stage_match key id (snd <$> map_to_list coll) = [] →
  aggregate key field id coll = [].
Proof. intros E. unfold aggregate. by rewrite E. Qed.

End PipelineFacts.


Lemma elem_of_reviews_of (p : ObjectId) (d : Db) (r : ReviewDoc.t) :
  r ∈ reviews_of p d ↔
  ReviewDoc.bootcamp r = p ∧ ∃ id, reviews d !! id = Some r.
Proof.
  unfold reviews_of. rewrite list_elem_of_filter, list_elem_of_fmap.
  split.
  - intros [Hp [[id r'] [-> Hin]]]. split; [done|]. exists id.
    by apply elem_of_map_to_list in Hin.
  - intros [Hp [id Hid]]. split; [done|]. exists (id, r). split; [done|].
    by apply elem_of_map_to_list.
Qed.

(** ** The maintainers *)

Lemma getAverageCost_some (p : ObjectId) (w : World) :
  courses_of p (db w) ≠ [] →
  Course.getAverageCost healthy p w =
    Resolved (set_db
      (Bootcamp_findByIdAndUpdate p
         (Bootcamp.set_averageCost
            (Num.ceil (Num.avg (CourseDoc.tuition <$> courses_of p (db w))
                       / Num.ofZ 10) * Num.ofZ 10)%Qc)
         (db w)) w).
Proof.
  intros Hne. unfold Course.getAverageCost. simpl.
  by rewrite (aggregate_some CourseDoc.bootcamp CourseDoc.tuition p _ Hne).
Qed.

Lemma getAverageRating_some (p : ObjectId) (w : World) :
  reviews_of p (db w) ≠ [] →
  Review.getAverageRating healthy p w =
    Resolved (set_db
      (Bootcamp_findByIdAndUpdate p
         (Bootcamp.set_averageRating
            (Num.avg (ReviewDoc.rating <$> reviews_of p (db w))))
         (db w)) w).
Proof.
  intros Hne. unfold Review.getAverageRating. simpl.
  by rewrite (aggregate_some ReviewDoc.bootcamp ReviewDoc.rating p _ Hne).
Qed.

Lemma ceil10_is_ceiling_to_10 (m : Qc) :
  ceiling_to_10 m (Num.ceil (m / Num.ofZ 10) * Num.ofZ 10)%Qc.
Proof.
  split; [|apply ceil10_bounds].
  exists (Qceiling (m / Num.ofZ 10)%Qc). unfold Num.ceil.
  rewrite ofZ_mult. f_equal. lia.
Qed.

(** C2. When the cost maintainer runs for a bootcamp that exists and has
    at least one course, it resolves and the bootcamp's [averageCost] is
    the arithmetic mean of the tuitions of its courses rounded up to the
    nearest multiple of 10; with tuitions 12 and 18 the mean is 15 and the
    stored value is 20. *)
Theorem getAverageCost_stores_ceiling_of_mean
    (p : ObjectId) (b : Bootcamp.t) (w : World) :
  bootcamps (db w) !! p = Some b →
  courses_of p (db w) ≠ [] →
  ∃ w' mean v,
    Course.getAverageCost healthy p w = Resolved w' ∧
    arithmetic_mean (CourseDoc.tuition <$> courses_of p (db w)) mean ∧
    ceiling_to_10 mean v ∧
    bootcamps (db w') !! p = Some (Bootcamp.set_averageCost v b) ∧
    averageCost_of p w' = Some (Some v) ∧
    (CourseDoc.tuition <$> courses_of p (db w) ≡ₚ [Num.ofZ 12; Num.ofZ 18] →
     mean = Num.ofZ 15 ∧ v = Num.ofZ 20).
Proof.
  intros Hb Hne.
  set (ts := CourseDoc.tuition <$> courses_of p (db w)).
  exists (set_db
    (Bootcamp_findByIdAndUpdate p
       (Bootcamp.set_averageCost
          (Num.ceil (Num.avg ts / Num.ofZ 10) * Num.ofZ 10)%Qc) (db w)) w),
    (Num.avg ts), (Num.ceil (Num.avg ts / Num.ofZ 10) * Num.ofZ 10)%Qc.
  assert (Hlook : bootcamps (db (set_db
    (Bootcamp_findByIdAndUpdate p
       (Bootcamp.set_averageCost
          (Num.ceil (Num.avg ts / Num.ofZ 10) * Num.ofZ 10)%Qc) (db w)) w))
    !! p = Some (Bootcamp.set_averageCost
          (Num.ceil (Num.avg ts / Num.ofZ 10) * Num.ofZ 10)%Qc b)).
  { simpl. rewrite lookup_alter_eq. by rewrite Hb. }
  split_and!.
  - by apply getAverageCost_some.
  - apply avg_is_mean. subst ts. intros E. apply Hne.
    by apply fmap_nil_inv in E.
  - apply ceil10_is_ceiling_to_10.
  - exact Hlook.
  - unfold averageCost_of. by rewrite Hlook.
  - intros Hperm.
    apply Permutation_sym, Permutation_length_2_inv in Hperm as [-> | ->];
      split; apply Qc_is_canon; vm_compute; reflexivity.
Qed.

(** The bootcamp of the deployment, with its courses of 12 and 18. *)
Lemma getAverageCost_stores_ceiling_of_mean_witness :
  bootcamps (db Demo.world) !! Demo.camp_id = Some Demo.camp ∧
  courses_of Demo.camp_id (db Demo.world) ≠ [] ∧
  ∃ w' mean v,
    Course.getAverageCost healthy Demo.camp_id Demo.world = Resolved w' ∧
    arithmetic_mean
      (CourseDoc.tuition <$> courses_of Demo.camp_id (db Demo.world)) mean ∧
    ceiling_to_10 mean v ∧
    bootcamps (db w') !! Demo.camp_id = Some (Bootcamp.set_averageCost v Demo.camp) ∧
    averageCost_of Demo.camp_id w' = Some (Some v) ∧
    (CourseDoc.tuition <$> courses_of Demo.camp_id (db Demo.world)
       ≡ₚ [Num.ofZ 12; Num.ofZ 18] →
     mean = Num.ofZ 15 ∧ v = Num.ofZ 20).
Proof.
  assert (H1 : bootcamps (db Demo.world) !! Demo.camp_id = Some Demo.camp)
    by (vm_compute; reflexivity).
  assert (H2 : courses_of Demo.camp_id (db Demo.world) ≠ [])
    by (vm_compute; discriminate).
  split; [exact H1|]. split; [exact H2|].
  exact (getAverageCost_stores_ceiling_of_mean
           Demo.camp_id Demo.camp Demo.world H1 H2).
Defined.






(** ** Failures of the storage layer *)

(** A failing update is caught and logged: the promise resolves. *)
Lemma getAverageCost_update_fault_logged
    (error : Err.t) (p : ObjectId) (w : World) :
  courses_of p (db w) ≠ [] →
  Course.getAverageCost (mkFaults None (Some error)) p w
    = Resolved (console_log (LogError error) w).
Proof.
  intros Hne. unfold Course.getAverageCost. simpl.
  by rewrite (aggregate_some CourseDoc.bootcamp CourseDoc.tuition p _ Hne).
Qed.

(** A parent that no longer exists: the update writes nothing and the
    promise resolves. *)
Lemma getAverageCost_parent_vanished (p : ObjectId) (w : World) :
  bootcamps (db w) !! p = None →
  ∃ w', Course.getAverageCost healthy p w = Resolved w' ∧
        bootcamps (db w') = bootcamps (db w).
Proof.
  intros Hp. unfold Course.getAverageCost. simpl.
  destruct (aggregate _ _ _ _) as [|[? ?] ?]; eexists; split; try done.
  simpl. apply map_eq. intros i. rewrite lookup_alter.
  case_decide; [subst; by rewrite Hp | done].
Qed.

(** C4. The aggregation is awaited before the [try]: when it fails, the
    promise of either maintainer rejects with the failure and nothing is
    logged by the maintainer; the hook has dropped the promise, so the
    rejection reaches the process, where the handler of [server.js] logs
    it and exits with code 1. *)
Theorem aggregation_failure_escapes_the_maintainer
    (e : Err.t) (u : option Err.t) (p : ObjectId)
    (course : CourseDoc.t) (review : ReviewDoc.t) (w : World) :
  Course.getAverageCost (mkFaults (Some e) u) p w = Rejected e w ∧
  Review.getAverageRating (mkFaults (Some e) u) p w = Rejected e w ∧
  Course.post_save (mkFaults (Some e) u) course w = unhandledRejection e w ∧
  Course.pre_remove (mkFaults (Some e) u) course w = unhandledRejection e w ∧
  Review.post_save (mkFaults (Some e) u) review w = unhandledRejection e w ∧
  Review.pre_remove (mkFaults (Some e) u) review w = unhandledRejection e w ∧
  exited (unhandledRejection e (mkWorld (db w) (console w) true (unhandled w)
                                  (exited w))) = Some 1.
Proof. by repeat split. Qed.

(** ** What the hooks leave alone *)

Lemma cost_hook_frame (f : Faults) (p : ObjectId) (w : World) :
  let w' := fire_and_forget (Course.getAverageCost f p w) in
  users (db w') = users (db w) ∧ courses (db w') = courses (db w) ∧
  reviews (db w') = reviews (db w).
Proof.
  unfold Course.getAverageCost, fire_and_forget, unhandledRejection.
  destruct (aggregate_fault f); [by destruct (run_as_main w)|].
  destruct (aggregate _ _ _ _) as [|[? ?] ?]; [done|].
  by destruct (update_fault f).
Qed.

Lemma rating_hook_frame (f : Faults) (p : ObjectId) (w : World) :
  let w' := fire_and_forget (Review.getAverageRating f p w) in
  users (db w') = users (db w) ∧ courses (db w') = courses (db w) ∧
  reviews (db w') = reviews (db w).
Proof.
  unfold Review.getAverageRating, fire_and_forget, unhandledRejection.
  destruct (aggregate_fault f); [by destruct (run_as_main w)|].
  destruct (aggregate _ _ _ _) as [|[? ?] ?]; [done|].
  by destruct (update_fault f).
Qed.

(** ** The unique index *)

Lemma one_review_per_pair_insert
    (rs : gmap ObjectId ReviewDoc.t) (id : ObjectId) (doc : ReviewDoc.t) :
  one_review_per_pair rs →
  Review.index_taken (ReviewDoc.bootcamp doc) (ReviewDoc.user doc) rs = false →
  one_review_per_pair (<[id := doc]> rs).
Proof.
  intros Huniq Hfree%bool_decide_eq_false i j r1 r2 H1 H2 Hb Hu.
  rewrite lookup_insert in H1. rewrite lookup_insert in H2.
  destruct (decide (id = i)) as [->|Hi], (decide (i = j)) as [->|Hj];
    try done; repeat case_decide; simplify_eq; try done.
  - exfalso. apply Hfree. exists j, r2. by rewrite H2, Hb, Hu.
  - exfalso. apply Hfree. exists i, r1. by rewrite H1, Hb, Hu.
  - exfalso. apply Hj. by eapply Huniq.
Qed.

Lemma one_review_per_pair_delete
    (rs : gmap ObjectId ReviewDoc.t) (id : ObjectId) :
  one_review_per_pair rs → one_review_per_pair (delete id rs).
Proof.
  intros Huniq i j r1 r2 H1 H2.
  apply lookup_delete_Some in H1 as [_ H1].
  apply lookup_delete_Some in H2 as [_ H2]. by eapply Huniq.
Qed.

Lemma step_keeps_one_review_per_pair `{Platform} (w : World) (e : Event) :
  one_review_per_pair (reviews (db w)) →
  one_review_per_pair (reviews (db (step w e))).
Proof.
  intros Huniq. destruct e as [f id doc | f id | f id i b u | f id]; simpl.
  - unfold Course.create. destruct (courses (db w) !! id); [done|].
    simpl. unfold Course.post_save.
    by rewrite (proj2 (proj2 (cost_hook_frame f _ _))).
  - destruct (courses (db w) !! id) as [this|]; [|done].
    unfold Course.remove, Course.pre_remove. simpl.
    by rewrite (proj2 (proj2 (cost_hook_frame f _ _))).
  - unfold Review.create. destruct (Review.validate i); [|done].
    unfold Review.insertOne. destruct (reviews (db w) !! id); [done|].
    destruct (Review.index_taken _ _ _) eqn:Htaken; [done|].
    simpl. unfold Review.post_save.
    rewrite (proj2 (proj2 (rating_hook_frame f _ _))). simpl.
    by apply one_review_per_pair_insert.
  - destruct (reviews (db w) !! id) as [this|]; [|done].
    unfold Review.remove, Review.pre_remove. simpl.
    rewrite (proj2 (proj2 (rating_hook_frame f _ _))).
    by apply one_review_per_pair_delete.
Qed.

Lemma run_keeps_one_review_per_pair `{Platform} (es : list Event) (w : World) :
  one_review_per_pair (reviews (db w)) →
  one_review_per_pair (reviews (db (run es w))).
Proof.
  revert w. induction es as [|e es IH]; intros w Huniq; [done|].
  apply IH. by apply step_keeps_one_review_per_pair.
Qed.

Lemma errorHandler_duplicate_key (index : string) (w : World) :
  errorHandler (DuplicateKeyError index) w =
    (mkResponse 400 (BError (MsgText "Duplicate field value entered")),
     console_log (LogError (DuplicateKeyError index)) w).
Proof. reflexivity. Qed.

(** C7. With a review of a bootcamp by an account in the store, a second
    review of that bootcamp by that account (one that passes the
    validators of the schema) is refused with a duplicate-key error, which
    the error handler answers with "Duplicate field value entered"
    (status 400, [success: false]); the database is unchanged. Along every
    sequence of creations and removals the store holds at most one review
    per account and bootcamp. *)
Theorem second_review_by_same_account_is_refused `{Platform}
    (f : Faults) (id : ObjectId) (i : Review.Input) (b u : ObjectId)
    (w : World) (id0 : ObjectId) (r0 : ReviewDoc.t) :
  reviews (db w) !! id0 = Some r0 →
  ReviewDoc.bootcamp r0 = b →
  ReviewDoc.user r0 = u →
  Review.validate i = [] →
  (∃ e resp w',
     Review.create f id i b u w = Rejected e w ∧
     Err.code e = Some 11000 ∧
     errorHandler e w = (resp, w') ∧
     status resp = 400 ∧ success resp = Some false ∧
     error resp = Some (MsgText "Duplicate field value entered") ∧
     db w' = db w) ∧
  (∀ es, one_review_per_pair (reviews (db w)) →
         one_review_per_pair (reviews (db (run es w)))).
Proof.
  intros H0 Hb Hu Hvalid. split.
  - assert (Htaken : Review.index_taken b u (reviews (db w)) = true).
    { apply bool_decide_eq_true. by exists id0, r0. }
    unfold Review.create. rewrite Hvalid. unfold Review.insertOne.
    destruct (reviews (db w) !! id).
    + eexists _, _, _. split; [reflexivity|].
      rewrite errorHandler_duplicate_key. by repeat split.
    + simpl. rewrite Htaken. eexists _, _, _. split; [reflexivity|].
      rewrite errorHandler_duplicate_key. by repeat split.
  - intros es Huniq. by apply run_keeps_one_review_per_pair.
Qed.

(** ** The error handler *)

Lemma append_not_empty (a : ascii) (s t : string) : String a s +:+ t ≠ EmptyString.
Proof. discriminate. Qed.

Lemma errorHandler_ErrorResponse (m : string) (code : Z) (w : World) :
  m ≠ EmptyString → code ≠ 0 →
  errorHandler (ErrorResponse (MsgText m) code) w =
    (mkResponse code (BError (MsgText m)),
     console_log (LogError (ErrorResponse (MsgText m) code)) w).
Proof.
  intros Hm Hcode. unfold errorHandler, ErrorResponse. simpl.
  unfold status_or. rewrite decide_False by done.
  destruct m; [done | reflexivity].
Qed.

Lemma errorHandler_CastError (e : Err.t) (w : World) :
  Err.name e = "CastError" → Err.code e ≠ Some 11000 →
  errorHandler e w =
    (mkResponse 404 (BError (MsgText "Resource not found")),
     console_log (LogError e) w).
Proof.
  intros Hname Hcode. unfold errorHandler. rewrite Hname.
  rewrite (decide_False (P := Err.code e = Some 11000)) by done.
  reflexivity.
Qed.

(** ** Chains of middleware *)

Section ChainFacts.
Context {B : Type}.

Lemma chain_next (h : Handler B) hs c w c' w' :
  h c w = Next c' w' → chain (h :: hs) c w = chain hs c' w'.
Proof. intros E. simpl. by rewrite E. Qed.

Lemma chain_sent (h : Handler B) hs c w r w' :
  h c w = Sent r w' → chain (h :: hs) c w = (Some r, w').
Proof. intros E. simpl. by rewrite E. Qed.

Lemma chain_error (h : Handler B) hs c w e w' :
  h c w = NextErr e w' →
  chain (h :: hs) c w = (Some (errorHandler e w').1, (errorHandler e w').2).
Proof. intros E. simpl. rewrite E. by destruct (errorHandler e w'). Qed.

Lemma authorize_allows (roles : list string) (c : Ctx B) (w : World) id u :
  user c = Some (id, u) → User.role u ∈ roles →
  authorize roles c w = Next c w.
Proof.
  intros Hu Hin. unfold authorize. rewrite Hu.
  by rewrite bool_decide_eq_true_2.
Qed.

Lemma authorize_denies (roles : list string) (c : Ctx B) (w : World) id u :
  user c = Some (id, u) → User.role u ∉ roles →
  authorize roles c w =
    NextErr (ErrorResponse
               (MsgText ("User role " +:+ User.role u +:+
                         " is not authorized to access this route")) 403) w.
Proof.
  intros Hu Hin. unfold authorize. rewrite Hu.
  by rewrite bool_decide_eq_false_2.
Qed.

End ChainFacts.

(** ** The users router *)

Section UsersRouterFacts.
Context `{Platform} {B : Type} `{UserModel B} `{Store (ObjectId * User.t)}.

(** An administrator passes the two gates of the router. *)
Lemma users_router_admin (c : Ctx B) (w : World) id u hs :
  protect c w = Next (set_user (id, u) c) w →
  User.role u = "admin" →
  chain (protect :: authorize ["admin"] :: hs) c w
    = chain hs (set_user (id, u) c) w.
Proof.
  intros Hauth Hrole. rewrite (chain_next _ _ _ _ _ _ Hauth).
  apply chain_next. eapply authorize_allows; [done|]. rewrite Hrole. by left.
Qed.

Lemma getUser_malformed (c : Ctx B) (w : World) :
  castObjectId (params_id c) = None →
  getUser c w = NextErr (CastError (params_id c) "_id") w.
Proof. intros E. unfold getUser, asyncHandler, User_findById. by rewrite E. Qed.

Lemma updateUser_malformed (c : Ctx B) (w : World) :
  castObjectId (params_id c) = None →
  updateUser c w = NextErr (CastError (params_id c) "_id") w.
Proof.
  intros E. unfold updateUser, asyncHandler, User_findById. by rewrite E.
Qed.

Lemma deleteUser_malformed (c : Ctx B) (w : World) :
  castObjectId (params_id c) = None →
  deleteUser c w = NextErr (CastError (params_id c) "_id") w.
Proof.
  intros E. unfold deleteUser, asyncHandler, User_findById. by rewrite E.
Qed.

Lemma getUser_missing (c : Ctx B) (w : World) (id : ObjectId) :
  castObjectId (params_id c) = Some id → users (db w) !! id = None →
  getUser c w = Sent (mkResponse 200 (BData PNull)) w.
Proof.
  intros E N. unfold getUser, asyncHandler, User_findById. by rewrite E, N.
Qed.

Lemma deleteUser_missing (c : Ctx B) (w : World) (id : ObjectId) :
  castObjectId (params_id c) = Some id → users (db w) !! id = None →
  deleteUser c w = NextErr (ErrorResponse (MsgText "Resource not found") 404) w.
Proof.
  intros E N. unfold deleteUser, asyncHandler, User_findById. by rewrite E, N.
Qed.

(** C5. On every route of the users router, [GET /users] among them, an
    authenticated account whose role is not in the allow-list [admin] is
    answered with status 403, [success: false] and the message
    "User role <role> is not authorized to access this route" with the
    role of the account; the database is unchanged. *)
Theorem users_router_forbids_other_roles
    (r : UsersRoute) (c : Ctx B) (w : World) (id : ObjectId) (u : User.t) :
  protect c w = Next (set_user (id, u) c) w →
  User.role u ∉ ["admin"] →
  ∃ resp w',
    chain (usersRouter r) c w = (Some resp, w') ∧
    status resp = 403 ∧
    success resp = Some false ∧
    error resp = Some (MsgText ("User role " +:+ User.role u +:+
                                " is not authorized to access this route")) ∧
    db w' = db w.
Proof.
  intros Hauth Hrole. unfold usersRouter.
  rewrite (chain_next _ _ _ _ _ _ Hauth).
  rewrite (chain_error _ _ _ _ _ _
             (authorize_denies ["admin"] (set_user (id, u) c) w id u
                eq_refl Hrole)).
  rewrite errorHandler_ErrorResponse by (done || apply append_not_empty).
  eexists _, _. by repeat split.
Qed.

(** C9. A path parameter that cannot be cast to an ObjectId makes the
    lookup of each handler of [controllers/users.js] throw a [CastError];
    the error handler answers any [CastError] with status 404,
    [success: false] and "Resource not found": not the 400 of a failed
    validation, and not the message of the cast failure. So does the
    users router for an administrator. *)
Theorem malformed_identifier_is_not_found (c : Ctx B) (w : World) :
  castObjectId (params_id c) = None →
  let answer :=
    (Some (mkResponse 404 (BError (MsgText "Resource not found"))),
     console_log (LogError (CastError (params_id c) "_id")) w) in
  chain [getUser] c w = answer ∧
  chain [updateUser] c w = answer ∧
  chain [deleteUser] c w = answer ∧
  (∀ e w0, Err.name e = "CastError" → Err.code e ≠ Some 11000 →
     let resp := (errorHandler e w0).1 in
     status resp = 404 ∧ success resp = Some false ∧
     error resp = Some (MsgText "Resource not found")) ∧
  (∀ r id u,
     r ∈ [GET_user; PUT_user; DELETE_user] →
     protect c w = Next (set_user (id, u) c) w →
     User.role u = "admin" →
     chain (usersRouter r) c w = answer).
Proof.
  intros Hcast answer.
  assert (Hget : ∀ c' : Ctx B, params_id c' = params_id c → chain [getUser] c' w = answer).
  { intros c' E. rewrite <- E in Hcast.
    rewrite (chain_error _ _ _ _ _ _ (getUser_malformed c' w Hcast)).
    rewrite errorHandler_CastError by done. subst answer. by rewrite E. }
  assert (Hput : ∀ c' : Ctx B, params_id c' = params_id c → chain [updateUser] c' w = answer).
  { intros c' E. rewrite <- E in Hcast.
    rewrite (chain_error _ _ _ _ _ _ (updateUser_malformed c' w Hcast)).
    rewrite errorHandler_CastError by done. subst answer. by rewrite E. }
  assert (Hdel : ∀ c' : Ctx B, params_id c' = params_id c → chain [deleteUser] c' w = answer).
  { intros c' E. rewrite <- E in Hcast.
    rewrite (chain_error _ _ _ _ _ _ (deleteUser_malformed c' w Hcast)).
    rewrite errorHandler_CastError by done. subst answer. by rewrite E. }
  split_and!; [by apply Hget | by apply Hput | by apply Hdel | |].
  - intros e w0 Hname Hcode. by rewrite errorHandler_CastError.
  - intros r id u Hr Hauth Hrole. unfold usersRouter.
    rewrite (users_router_admin c w id u _ Hauth Hrole).
    repeat (apply elem_of_cons in Hr as [-> | Hr]);
      [by apply Hget | by apply Hput | by apply Hdel | by apply elem_of_nil in Hr].
Qed.

(** C10. For a well-formed identifier that resolves to no user, as the
    administrator: [GET /users/:id] answers 200 with [success: true] and
    [data: null]; [DELETE /users/:id] answers 404 with [success: false]
    and "Resource not found". *)
Theorem missing_user_lookup_and_delete_differ
    (c : Ctx B) (w : World) (id : ObjectId) (account : ObjectId * User.t) :
  castObjectId (params_id c) = Some id →
  users (db w) !! id = None →
  protect c w = Next (set_user account c) w →
  User.role account.2 = "admin" →
  (∃ resp,
     chain (usersRouter GET_user) c w = (Some resp, w) ∧
     status resp = 200 ∧ success resp = Some true ∧
     data resp = Some PNull ∧ error resp = None) ∧
  (∃ resp w',
     chain (usersRouter DELETE_user) c w = (Some resp, w') ∧
     status resp = 404 ∧ success resp = Some false ∧
     error resp = Some (MsgText "Resource not found") ∧
     data resp = None ∧ db w' = db w).
Proof.
  intros Hcast Hnone Hauth Hrole. destruct account as [aid u].
  assert (Hcast' : castObjectId (params_id (set_user (aid, u) c)) = Some id)
    by done.
  split.
  - unfold usersRouter.
    rewrite (users_router_admin c w aid u _ Hauth Hrole).
    rewrite (chain_sent _ _ _ _ _ _ (getUser_missing _ w id Hcast' Hnone)).
    eexists. by repeat split.
  - unfold usersRouter.
    rewrite (users_router_admin c w aid u _ Hauth Hrole).
    rewrite (chain_error _ _ _ _ _ _ (deleteUser_missing _ w id Hcast' Hnone)).
    rewrite errorHandler_ErrorResponse by done.
    eexists _, _. by repeat split.
Qed.

End UsersRouterFacts.

(** ** The reviews router *)

Section ReviewsRouterFacts.
Context `{Platform}.

Lemma owned_review_stranger (c : Ctx Review.Input) (w : World)
    (account : ObjectId * User.t) (id : ObjectId) (rv : ReviewDoc.t) :
  user c = Some account →
  castObjectId (params_id c) = Some id →
  reviews (db w) !! id = Some rv →
  ReviewDoc.user rv ≠ account.1 →
  User.role account.2 ≠ "admin" →
  owned_review c w = inl (not_authorized, false).
Proof.
  intros Hu Hcast Hrv Howner Hrole. unfold owned_review, owns_or_admin.
  rewrite Hcast, Hrv, Hu.
  by rewrite !bool_decide_eq_false_2.
Qed.

(** C6. An update or a delete of a review by an authenticated account
    that is neither the owner of the review nor an administrator is
    answered with status 401, [success: false] and
    "Not authorized to access this route"; the database, and the review
    in it, are unchanged. *)
Theorem stranger_cannot_change_review
    (f : Faults) (r : ReviewsRoute) (c : Ctx Review.Input) (w : World)
    (account : ObjectId * User.t) (id : ObjectId) (rv : ReviewDoc.t) :
  protect c w = Next (set_user account c) w →
  castObjectId (params_id c) = Some id →
  reviews (db w) !! id = Some rv →
  ReviewDoc.user rv ≠ account.1 →
  User.role account.2 ≠ "admin" →
  ∃ resp w',
    chain (reviewsRouter f r) c w = (Some resp, w') ∧
    status resp = 401 ∧
    success resp = Some false ∧
    error resp = Some (MsgText "Not authorized to access this route") ∧
    db w' = db w ∧
    reviews (db w') !! id = Some rv.
Proof.
  intros Hauth Hcast Hrv Howner Hrole.
  pose proof (owned_review_stranger (set_user account c) w account id rv
                eq_refl Hcast Hrv Howner Hrole) as Hgate.
  assert (Hh : ∀ h, h ∈ [updateReview f; deleteReview f] →
                    h (set_user account c) w = NextErr not_authorized w).
  { intros h Hin.
    repeat (apply elem_of_cons in Hin as [-> | Hin]);
      [| |by apply elem_of_nil in Hin].
    - unfold updateReview, asyncHandler. by rewrite Hgate.
    - unfold deleteReview, asyncHandler. by rewrite Hgate. }
  unfold reviewsRouter. rewrite (chain_next _ _ _ _ _ _ Hauth).
  destruct r.
  - rewrite (chain_error _ _ _ _ _ _ (Hh _ ltac:(by left))).
    unfold not_authorized. rewrite errorHandler_ErrorResponse by done.
    eexists _, _. by repeat split.
  - rewrite (chain_error _ _ _ _ _ _ (Hh _ ltac:(by right; left))).
    unfold not_authorized. rewrite errorHandler_ErrorResponse by done.
    eexists _, _. by repeat split.
Qed.

End ReviewsRouterFacts.

(** ** Paging *)

Section ListingFacts.
Context {D : Type} `{Store D} {B : Type}.


End ListingFacts.

(** ** The statements on the small deployment *)

Example first_page_of_users :
  (chain (@usersRouter Demo.platform unit Demo.user_model Demo.user_store
            GET_users) (Demo.listing_request "1") Demo.world).1
  = Some (mkResponse 200
      (BList 2 (mkPagination (Some (mkPageRef 2 2)) None)
         [PUser Demo.greg_id Demo.greg; PUser Demo.sasha_id Demo.sasha])).
Proof. vm_compute. reflexivity. Qed.

Example second_page_of_users :
  (chain (@usersRouter Demo.platform unit Demo.user_model Demo.user_store
            GET_users) (Demo.listing_request "2") Demo.world).1
  = Some (mkResponse 200
      (BList 1 (mkPagination None (Some (mkPageRef 1 2)))
         [PUser Demo.admin_id Demo.admin])).
Proof. vm_compute. reflexivity. Qed.

(** Greg, whose role is [user], asks for the list of users. *)
Lemma users_router_forbids_other_roles_witness :
  let c := Demo.request EmptyString "greg.jwt" tt in
  protect (H := Demo.platform) c Demo.world
    = Next (set_user (Demo.greg_id, Demo.greg) c) Demo.world ∧
  (User.role Demo.greg ∉ ["admin"]) ∧
  ∃ resp w',
    chain (@usersRouter Demo.platform unit Demo.user_model Demo.user_store
             GET_users) c Demo.world = (Some resp, w') ∧
    status resp = 403 ∧
    success resp = Some false ∧
    error resp
      = Some (MsgText "User role user is not authorized to access this route") ∧
    db w' = db Demo.world.
Proof.
  intros c.
  assert (H1 : protect (H := Demo.platform) c Demo.world
               = Next (set_user (Demo.greg_id, Demo.greg) c) Demo.world)
    by (vm_compute; reflexivity).
  assert (H2 : User.role Demo.greg ∉ ["admin"])
    by (intros Hin%list_elem_of_singleton; vm_compute in Hin; discriminate).
  split; [exact H1|]. split; [exact H2|].
  exact (@users_router_forbids_other_roles Demo.platform unit Demo.user_model
           Demo.user_store GET_users c Demo.world Demo.greg_id Demo.greg
           H1 H2).
Defined.

(** Sasha, a publisher, tries to update the review that Greg wrote. *)
Lemma stranger_cannot_change_review_witness :
  let c := Demo.request Demo.review_id "sasha.jwt" (Demo.review_input 8) in
  protect (H := Demo.platform) c Demo.world
    = Next (set_user (Demo.sasha_id, Demo.sasha) c) Demo.world ∧
  castObjectId (Platform := Demo.platform) (params_id c) = Some Demo.review_id ∧
  reviews (db Demo.world) !! Demo.review_id = Some Demo.review ∧
  ReviewDoc.user Demo.review ≠ Demo.sasha_id ∧
  User.role Demo.sasha ≠ "admin" ∧
  ∃ resp w',
    chain (reviewsRouter (H := Demo.platform) healthy PUT_review) c Demo.world
      = (Some resp, w') ∧
    status resp = 401 ∧
    success resp = Some false ∧
    error resp = Some (MsgText "Not authorized to access this route") ∧
    db w' = db Demo.world ∧
    reviews (db w') !! Demo.review_id = Some Demo.review.
Proof.
  intros c.
  assert (H1 : protect (H := Demo.platform) c Demo.world
               = Next (set_user (Demo.sasha_id, Demo.sasha) c) Demo.world)
    by (vm_compute; reflexivity).
  assert (H2 : castObjectId (Platform := Demo.platform) (params_id c)
               = Some Demo.review_id) by (vm_compute; reflexivity).
  assert (H3 : reviews (db Demo.world) !! Demo.review_id = Some Demo.review)
    by (vm_compute; reflexivity).
  assert (H4 : ReviewDoc.user Demo.review ≠ Demo.sasha_id)
    by (vm_compute; discriminate).
  assert (H5 : User.role Demo.sasha ≠ "admin") by (vm_compute; discriminate).
  split_and!; [exact H1 | exact H2 | exact H3 | exact H4 | exact H5 |].
  exact (stranger_cannot_change_review (H := Demo.platform) healthy PUT_review
           c Demo.world (Demo.sasha_id, Demo.sasha) Demo.review_id Demo.review
           H1 H2 H3 H4 H5).
Defined.

(** Greg submits a second review of the bootcamp he has reviewed. *)
Lemma second_review_by_same_account_is_refused_witness :
  reviews (db Demo.world) !! Demo.review_id = Some Demo.review ∧
  ReviewDoc.bootcamp Demo.review = Demo.camp_id ∧
  ReviewDoc.user Demo.review = Demo.greg_id ∧
  Review.validate (H := Demo.platform) (Demo.review_input 8) = [] ∧
  (∃ e resp w',
     Review.create (H := Demo.platform) healthy Demo.review2_id
       (Demo.review_input 8) Demo.camp_id Demo.greg_id Demo.world
       = Rejected e Demo.world ∧
     Err.code e = Some 11000 ∧
     errorHandler e Demo.world = (resp, w') ∧
     status resp = 400 ∧ success resp = Some false ∧
     error resp = Some (MsgText "Duplicate field value entered") ∧
     db w' = db Demo.world) ∧
  (∀ es, one_review_per_pair (reviews (db Demo.world)) →
         one_review_per_pair
           (reviews (db (run (H := Demo.platform) es Demo.world)))).
Proof.
  assert (H1 : reviews (db Demo.world) !! Demo.review_id = Some Demo.review)
    by (vm_compute; reflexivity).
  assert (H4 : Review.validate (H := Demo.platform) (Demo.review_input 8) = [])
    by (vm_compute; reflexivity).
  split_and!; [exact H1 | reflexivity | reflexivity | exact H4 | |];
    apply (second_review_by_same_account_is_refused (H := Demo.platform)
             healthy Demo.review2_id (Demo.review_input 8) Demo.camp_id
             Demo.greg_id Demo.world Demo.review_id Demo.review
             H1 eq_refl eq_refl H4).
Defined.

(** The administrator asks for the user [12345]. *)
Lemma malformed_identifier_is_not_found_witness :
  let c := Demo.request "12345" "admin.jwt" tt in
  let answer :=
    (Some (mkResponse 404 (BError (MsgText "Resource not found"))),
     console_log (LogError (CastError "12345" "_id")) Demo.world) in
  castObjectId (Platform := Demo.platform) (params_id c) = None ∧
  chain [getUser (H := Demo.platform) (B := unit)] c Demo.world
    = answer ∧
  chain (@usersRouter Demo.platform unit Demo.user_model Demo.user_store
           GET_user) c Demo.world = answer ∧
  chain (@usersRouter Demo.platform unit Demo.user_model Demo.user_store
           DELETE_user) c Demo.world = answer.
Proof.
  intros c answer.
  assert (H1 : castObjectId (Platform := Demo.platform) (params_id c) = None)
    by (vm_compute; reflexivity).
  assert (H2 : protect (H := Demo.platform) c Demo.world
               = Next (set_user (Demo.admin_id, Demo.admin) c) Demo.world)
    by (vm_compute; reflexivity).
  destruct (@malformed_identifier_is_not_found Demo.platform unit
              Demo.user_model Demo.user_store c Demo.world H1)
    as (Hget & _ & _ & _ & Hrouter).
  split_and!; [exact H1 | exact Hget | |].
  - apply (Hrouter GET_user Demo.admin_id Demo.admin);
      [by left | exact H2 | reflexivity].
  - apply (Hrouter DELETE_user Demo.admin_id Demo.admin);
      [by right; right; left | exact H2 | reflexivity].
Defined.

(** The administrator looks up, and deletes, a user that is not there. *)
Lemma missing_user_lookup_and_delete_differ_witness :
  let c := Demo.request Demo.missing_id "admin.jwt" tt in
  castObjectId (Platform := Demo.platform) (params_id c) = Some Demo.missing_id ∧
  users (db Demo.world) !! Demo.missing_id = None ∧
  protect (H := Demo.platform) c Demo.world
    = Next (set_user (Demo.admin_id, Demo.admin) c) Demo.world ∧
  User.role Demo.admin = "admin" ∧
  (∃ resp,
     chain (@usersRouter Demo.platform unit Demo.user_model Demo.user_store
              GET_user) c Demo.world = (Some resp, Demo.world) ∧
     status resp = 200 ∧ success resp = Some true ∧
     data resp = Some PNull ∧ error resp = None) ∧
  (∃ resp w',
     chain (@usersRouter Demo.platform unit Demo.user_model Demo.user_store
              DELETE_user) c Demo.world = (Some resp, w') ∧
     status resp = 404 ∧ success resp = Some false ∧
     error resp = Some (MsgText "Resource not found") ∧
     data resp = None ∧ db w' = db Demo.world).
Proof.
  intros c.
  assert (H1 : castObjectId (Platform := Demo.platform) (params_id c)
               = Some Demo.missing_id) by (vm_compute; reflexivity).
  assert (H2 : users (db Demo.world) !! Demo.missing_id = None)
    by (vm_compute; reflexivity).
  assert (H3 : protect (H := Demo.platform) c Demo.world
               = Next (set_user (Demo.admin_id, Demo.admin) c) Demo.world)
    by (vm_compute; reflexivity).
  split_and!; [exact H1 | exact H2 | exact H3 | reflexivity | |];
    apply (@missing_user_lookup_and_delete_differ Demo.platform unit
             Demo.user_model Demo.user_store c Demo.world Demo.missing_id
             (Demo.admin_id, Demo.admin) H1 H2 H3 eq_refl).
Defined.

(** * Further properties of the sources *)

(** ** Means *)

Section MeanFacts.
Local Open Scope Qc_scope.

Lemma ofZ_pos (z : Z) : (0 < z)%Z → 0 < Num.ofZ z.
Proof.
  intros Hz. unfold Qclt. rewrite ofZ_this. unfold Qlt. simpl. lia.
Qed.

Lemma ofZ_succ (n : nat) :
  Num.ofZ (Z.of_nat (S n)) = Num.ofZ (Z.of_nat n) + Num.ofZ 1.
Proof. rewrite ofZ_plus. f_equal. lia. Qed.

Lemma sum_lower (lo : Qc) (l : list Qc) :
  Forall (λ x, lo ≤ x) l → lo * Num.ofZ (Z.of_nat (length l)) ≤ Num.sum l.
Proof.
  induction 1 as [|x l Hx _ IH].
  - simpl. change (Num.ofZ 0) with 0. rewrite Qcmult_0_r. apply Qcle_refl.
  - rewrite sum_cons. change (length (x :: l)) with (S (length l)).
    rewrite ofZ_succ.
    replace (lo * (Num.ofZ (Z.of_nat (length l)) + Num.ofZ 1))
      with (lo + lo * Num.ofZ (Z.of_nat (length l)))
      by (change (Num.ofZ 1) with 1; ring).
    by apply Qcplus_le_compat.
Qed.

Lemma sum_upper (hi : Qc) (l : list Qc) :
  Forall (λ x, x ≤ hi) l → Num.sum l ≤ hi * Num.ofZ (Z.of_nat (length l)).
Proof.
  induction 1 as [|x l Hx _ IH].
  - simpl. change (Num.ofZ 0) with 0. rewrite Qcmult_0_r. apply Qcle_refl.
  - rewrite sum_cons. change (length (x :: l)) with (S (length l)).
    rewrite ofZ_succ.
    replace (hi * (Num.ofZ (Z.of_nat (length l)) + Num.ofZ 1))
      with (hi + hi * Num.ofZ (Z.of_nat (length l)))
      by (change (Num.ofZ 1) with 1; ring).
    by apply Qcplus_le_compat.
Qed.

(** The mean of values between two bounds lies between the bounds. *)
Lemma avg_between (lo hi : Qc) (l : list Qc) :
  l ≠ [] → Forall (λ x, lo ≤ x ∧ x ≤ hi) l →
  lo ≤ Num.avg l ∧ Num.avg l ≤ hi.
Proof.
  intros Hne Hall.
  assert (Hn : 0 < Num.ofZ (Z.of_nat (length l))).
  { apply ofZ_pos. destruct l; [done | simpl; lia]. }
  pose proof (avg_is_mean l Hne) as Hmean.
  split.
  - apply (Qcmult_lt_0_le_reg_r _ _ _ Hn). rewrite Hmean.
    apply sum_lower. eapply Forall_impl; [exact Hall|]. by intros ? [? _].
  - apply (Qcmult_lt_0_le_reg_r _ _ _ Hn). rewrite Hmean.
    apply sum_upper. eapply Forall_impl; [exact Hall|]. by intros ? [_ ?].
Qed.

(** The sum, and so the mean, does not depend on the order in which the
    collection hands out its documents. *)
Lemma sum_permutation (l k : list Qc) : l ≡ₚ k → Num.sum l = Num.sum k.
Proof.
  induction 1 as [|x l k _ IH|x y l|l k m _ IH1 _ IH2].
  - done.
  - by rewrite !sum_cons, IH.
  - rewrite !sum_cons. ring.
  - by rewrite IH1.
Qed.

Lemma avg_permutation (l k : list Qc) : l ≡ₚ k → Num.avg l = Num.avg k.
Proof.
  intros Hp. unfold Num.avg.
  by rewrite (sum_permutation l k Hp), (Permutation_length Hp).
Qed.

End MeanFacts.

(** ** The pipeline, again *)

Section PipelineMore.
Context {D : Type} (key : D → ObjectId) (field : D → Qc).

(** X1. The pipeline of the maintainers gives no group exactly when no
    document of the collection references the bootcamp; otherwise it gives
    one group only, whose [_id] is the bootcamp and whose value is the mean
    over the documents that reference it. *)
Theorem aggregate_at_most_one_group
    (id : ObjectId) (coll : gmap ObjectId D) :
  (aggregate key field id coll = [] ↔
   ∀ i d, coll !! i = Some d → key d ≠ id) ∧
  (∀ g, g ∈ aggregate key field id coll →
     aggregate key field id coll = [g] ∧ g.1 = id ∧
     g.2 = Num.avg (field <$> stage_match key id (snd <$> map_to_list coll))).
Proof.
  destruct (stage_match key id (snd <$> map_to_list coll)) as [|d0 ds] eqn:E.
  - rewrite (aggregate_none key field id coll E). split.
    + split; [|done]. intros _ i d Hd Hk.
      assert (Hin : d ∈ stage_match key id (snd <$> map_to_list coll)).
      { unfold stage_match. apply list_elem_of_filter. split; [done|].
        apply list_elem_of_fmap. exists (i, d). split; [done|].
        by apply elem_of_map_to_list. }
      rewrite E in Hin. by apply elem_of_nil in Hin.
    + intros g Hg. by apply elem_of_nil in Hg.
  - assert (Hne : stage_match key id (snd <$> map_to_list coll) ≠ [])
      by (by rewrite E).
    rewrite (aggregate_some key field id coll Hne). rewrite E. split.
    + split; [done|]. intros Hnone. exfalso.
      assert (Hin : d0 ∈ stage_match key id (snd <$> map_to_list coll))
        by (rewrite E; left).
      unfold stage_match in Hin.
      apply list_elem_of_filter in Hin as [Hk Hin].
      apply list_elem_of_fmap in Hin as [[i d] [-> Hin]].
      apply elem_of_map_to_list in Hin. by eapply Hnone.
    + intros g Hg. apply list_elem_of_singleton in Hg. by subst g.
Qed.

(** X2. A document of another bootcamp, added to the collection, does not
    change what the pipeline gives for this bootcamp. *)
Theorem aggregate_ignores_other_parents
    (id : ObjectId) (coll : gmap ObjectId D) (i : ObjectId) (d : D) :
  coll !! i = None → key d ≠ id →
  aggregate key field id (<[i := d]> coll) = aggregate key field id coll.
Proof.
  intros Hfresh Hother.
  assert (Hperm : stage_match key id (snd <$> map_to_list (<[i := d]> coll))
                  ≡ₚ stage_match key id (snd <$> map_to_list coll)).
  { unfold stage_match. rewrite (map_to_list_insert coll i d Hfresh).
    rewrite fmap_cons. simpl. by rewrite filter_cons_False. }
  destruct (stage_match key id (snd <$> map_to_list coll)) as [|d0 ds] eqn:E.
  - apply Permutation_nil_r in Hperm.
    by rewrite (aggregate_none key field id _ Hperm),
               (aggregate_none key field id _ E).
  - assert (Hne : stage_match key id (snd <$> map_to_list coll) ≠ [])
      by (by rewrite E).
    assert (Hne' : stage_match key id (snd <$> map_to_list (<[i := d]> coll))
                   ≠ []).
    { intros E'. rewrite E' in Hperm. by apply Permutation_nil_l in Hperm. }
    rewrite (aggregate_some key field id _ Hne),
            (aggregate_some key field id _ Hne'). rewrite E.
    do 2 f_equal. apply avg_permutation. by apply fmap_Permutation.
Qed.

End PipelineMore.

(** ** The maintainers, again *)

Lemma Bootcamp_findByIdAndUpdate_other
    (p q : ObjectId) (upd : Bootcamp.t → Bootcamp.t) (d : Db) :
  q ≠ p →
  bootcamps (Bootcamp_findByIdAndUpdate p upd d) !! q = bootcamps d !! q.
Proof. intros Hq. simpl. by rewrite lookup_alter_ne. Qed.

Lemma Bootcamp_findByIdAndUpdate_self
    (p : ObjectId) (upd : Bootcamp.t → Bootcamp.t) (d : Db) :
  bootcamps (Bootcamp_findByIdAndUpdate p upd d) !! p
    = upd <$> bootcamps d !! p.
Proof. simpl. by rewrite lookup_alter_eq. Qed.

(** X3. Whatever the storage layer does, the recomputation of the cost
    for a bootcamp leaves users, courses and reviews as they are, leaves
    every other bootcamp as it is, never creates the bootcamp, and of the
    bootcamp itself changes nothing but [averageCost]. *)
Theorem getAverageCost_touches_one_field
    (f : Faults) (p : ObjectId) (w : World) :
  let w' := fire_and_forget (Course.getAverageCost f p w) in
  users (db w') = users (db w) ∧
  courses (db w') = courses (db w) ∧
  reviews (db w') = reviews (db w) ∧
  (∀ q, q ≠ p → bootcamps (db w') !! q = bootcamps (db w) !! q) ∧
  (bootcamps (db w) !! p = None → bootcamps (db w') !! p = None) ∧
  (∀ b, bootcamps (db w) !! p = Some b →
     ∃ b', bootcamps (db w') !! p = Some b' ∧
           Bootcamp.name b' = Bootcamp.name b ∧
           Bootcamp.user b' = Bootcamp.user b ∧
           Bootcamp.averageRating b' = Bootcamp.averageRating b).
Proof.
  intros w'. destruct (cost_hook_frame f p w) as (Hu & Hc & Hr).
  split_and!; [exact Hu | exact Hc | exact Hr | | |]; subst w';
    unfold Course.getAverageCost, fire_and_forget, unhandledRejection.
  - intros q Hq. destruct (aggregate_fault f); [by destruct (run_as_main w)|].
    destruct (aggregate _ _ _ _) as [|[? ?] ?]; [done|].
    destruct (update_fault f); [done|]. simpl. by rewrite lookup_alter_ne.
  - intros Hnone. destruct (aggregate_fault f); [by destruct (run_as_main w)|].
    destruct (aggregate _ _ _ _) as [|[? ?] ?]; [done|].
    destruct (update_fault f); [done|]. simpl.
    by rewrite lookup_alter_eq, Hnone.
  - intros b Hb. destruct (aggregate_fault f).
    { destruct (run_as_main w); by exists b. }
    destruct (aggregate _ _ _ _) as [|[? ?] ?]; [by exists b|].
    destruct (update_fault f); [by exists b|]. simpl.
    rewrite lookup_alter_eq, Hb. by eexists.
Qed.

(** X4. Likewise the recomputation of the rating changes nothing but
    [averageRating] of the one bootcamp. *)
Theorem getAverageRating_touches_one_field
    (f : Faults) (p : ObjectId) (w : World) :
  let w' := fire_and_forget (Review.getAverageRating f p w) in
  users (db w') = users (db w) ∧
  courses (db w') = courses (db w) ∧
  reviews (db w') = reviews (db w) ∧
  (∀ q, q ≠ p → bootcamps (db w') !! q = bootcamps (db w) !! q) ∧
  (bootcamps (db w) !! p = None → bootcamps (db w') !! p = None) ∧
  (∀ b, bootcamps (db w) !! p = Some b →
     ∃ b', bootcamps (db w') !! p = Some b' ∧
           Bootcamp.name b' = Bootcamp.name b ∧
           Bootcamp.user b' = Bootcamp.user b ∧
           Bootcamp.averageCost b' = Bootcamp.averageCost b).
Proof.
  intros w'. destruct (rating_hook_frame f p w) as (Hu & Hc & Hr).
  split_and!; [exact Hu | exact Hc | exact Hr | | |]; subst w';
    unfold Review.getAverageRating, fire_and_forget, unhandledRejection.
  - intros q Hq. destruct (aggregate_fault f); [by destruct (run_as_main w)|].
    destruct (aggregate _ _ _ _) as [|[? ?] ?]; [done|].
    destruct (update_fault f); [done|]. simpl. by rewrite lookup_alter_ne.
  - intros Hnone. destruct (aggregate_fault f); [by destruct (run_as_main w)|].
    destruct (aggregate _ _ _ _) as [|[? ?] ?]; [done|].
    destruct (update_fault f); [done|]. simpl.
    by rewrite lookup_alter_eq, Hnone.
  - intros b Hb. destruct (aggregate_fault f).
    { destruct (run_as_main w); by exists b. }
    destruct (aggregate _ _ _ _) as [|[? ?] ?]; [by exists b|].
    destruct (update_fault f); [by exists b|]. simpl.
    rewrite lookup_alter_eq, Hb. by eexists.
Qed.

(** X5. With working storage a recomputation is idempotent on the
    database: running a maintainer again writes what is already there. *)
Theorem maintainers_are_idempotent (p : ObjectId) (w : World) :
  (let w1 := fire_and_forget (Course.getAverageCost healthy p w) in
   db (fire_and_forget (Course.getAverageCost healthy p w1)) = db w1) ∧
  (let w1 := fire_and_forget (Review.getAverageRating healthy p w) in
   db (fire_and_forget (Review.getAverageRating healthy p w1)) = db w1).
Proof.
  split; intros w1; subst w1.
  - destruct (decide (courses_of p (db w) = [])) as [Hnone|Hsome].
    + unfold Course.getAverageCost at 2. simpl.
      rewrite (aggregate_none CourseDoc.bootcamp CourseDoc.tuition p _ Hnone).
      simpl. unfold Course.getAverageCost. simpl.
      by rewrite (aggregate_none CourseDoc.bootcamp CourseDoc.tuition p _ Hnone).
    + rewrite (getAverageCost_some p w Hsome). simpl.
      set (w1 := set_db _ w).
      assert (Hsame : courses_of p (db w1) = courses_of p (db w)) by done.
      assert (Hsome1 : courses_of p (db w1) ≠ []) by (by rewrite Hsame).
      rewrite (getAverageCost_some p w1 Hsome1). rewrite Hsame.
      subst w1. simpl. unfold Bootcamp_findByIdAndUpdate, set_bootcamps. simpl.
      f_equal. apply map_eq. intros q.
      destruct (decide (q = p)) as [->|Hq];
        [|by rewrite !lookup_alter_ne].
      rewrite !lookup_alter_eq. by destruct (bootcamps (db w) !! p).
  - destruct (decide (reviews_of p (db w) = [])) as [Hnone|Hsome].
    + unfold Review.getAverageRating at 2. simpl.
      rewrite (aggregate_none ReviewDoc.bootcamp ReviewDoc.rating p _ Hnone).
      simpl. unfold Review.getAverageRating. simpl.
      by rewrite (aggregate_none ReviewDoc.bootcamp ReviewDoc.rating p _ Hnone).
    + rewrite (getAverageRating_some p w Hsome). simpl.
      set (w1 := set_db _ w).
      assert (Hsame : reviews_of p (db w1) = reviews_of p (db w)) by done.
      assert (Hsome1 : reviews_of p (db w1) ≠ []) by (by rewrite Hsame).
      rewrite (getAverageRating_some p w1 Hsome1). rewrite Hsame.
      subst w1. simpl. unfold Bootcamp_findByIdAndUpdate, set_bootcamps.
      simpl. f_equal. apply map_eq. intros q.
      destruct (decide (q = p)) as [->|Hq];
        [|by rewrite !lookup_alter_ne].
      rewrite !lookup_alter_eq. by destruct (bootcamps (db w) !! p).
Qed.

(** X6. When the aggregation succeeds a maintainer resolves, whatever the
    update does: nothing reaches the process as an unhandled rejection and
    the process is not told to exit, neither by the maintainers nor by the
    four hooks. *)
Theorem maintainers_resolve_when_aggregation_succeeds
    (f : Faults) (p : ObjectId) (course : CourseDoc.t) (review : ReviewDoc.t)
    (w : World) :
  aggregate_fault f = None →
  (∃ w', Course.getAverageCost f p w = Resolved w' ∧
         exited w' = exited w ∧ unhandled w' = unhandled w) ∧
  (∃ w', Review.getAverageRating f p w = Resolved w' ∧
         exited w' = exited w ∧ unhandled w' = unhandled w) ∧
  (∀ w', w' ∈ [Course.post_save f course w; Course.pre_remove f course w;
               Review.post_save f review w; Review.pre_remove f review w] →
         exited w' = exited w ∧ unhandled w' = unhandled w).
Proof.
  intros Hf.
  assert (Hc : ∀ q, ∃ w', Course.getAverageCost f q w = Resolved w' ∧
                         exited w' = exited w ∧ unhandled w' = unhandled w).
  { intros q. unfold Course.getAverageCost. rewrite Hf.
    destruct (aggregate _ _ _ _) as [|[? ?] ?]; [by eexists|].
    destruct (update_fault f); by eexists. }
  assert (Hr : ∀ q, ∃ w', Review.getAverageRating f q w = Resolved w' ∧
                         exited w' = exited w ∧ unhandled w' = unhandled w).
  { intros q. unfold Review.getAverageRating. rewrite Hf.
    destruct (aggregate _ _ _ _) as [|[? ?] ?]; [by eexists|].
    destruct (update_fault f); by eexists. }
  split; [apply Hc|]. split; [apply Hr|].
  intros w' Hin.
  repeat (apply elem_of_cons in Hin as [-> | Hin]);
    [..|by apply elem_of_nil in Hin].
  - unfold Course.post_save.
    by destruct (Hc (CourseDoc.bootcamp course)) as (? & -> & ? & ?).
  - unfold Course.pre_remove.
    by destruct (Hc (CourseDoc.bootcamp course)) as (? & -> & ? & ?).
  - unfold Review.post_save.
    by destruct (Hr (ReviewDoc.bootcamp review)) as (? & -> & ? & ?).
  - unfold Review.pre_remove.
    by destruct (Hr (ReviewDoc.bootcamp review)) as (? & -> & ? & ?).
Qed.

Section BoundFacts.
Local Open Scope Qc_scope.

(** X7. The rating a recomputation stores lies between the least and the
    greatest rating of the reviews of the bootcamp: with every rating
    between [lo] and [hi], so is the stored [averageRating]. *)
Theorem averageRating_within_bounds
    (p : ObjectId) (b : Bootcamp.t) (w : World) (lo hi : Qc) :
  bootcamps (db w) !! p = Some b →
  reviews_of p (db w) ≠ [] →
  (∀ r, r ∈ reviews_of p (db w) →
        lo ≤ ReviewDoc.rating r ∧ ReviewDoc.rating r ≤ hi) →
  ∃ m,
    averageRating_of p (fire_and_forget (Review.getAverageRating healthy p w))
      = Some (Some m) ∧
    lo ≤ m ∧ m ≤ hi.
Proof.
  intros Hb Hne Hall. rewrite (getAverageRating_some p w Hne).
  exists (Num.avg (ReviewDoc.rating <$> reviews_of p (db w))). split.
  - unfold averageRating_of. simpl. by rewrite lookup_alter_eq, Hb.
  - apply avg_between.
    + intros E. by apply fmap_nil_inv in E.
    + apply Forall_fmap, Forall_forall. intros r Hr. by apply Hall.
Qed.

(** X8. The cost a recomputation stores is not below the least tuition of
    the courses of the bootcamp and less than 10 above the greatest. *)
Theorem averageCost_within_bounds
    (p : ObjectId) (b : Bootcamp.t) (w : World) (lo hi : Qc) :
  bootcamps (db w) !! p = Some b →
  courses_of p (db w) ≠ [] →
  (∀ c, c ∈ courses_of p (db w) →
        lo ≤ CourseDoc.tuition c ∧ CourseDoc.tuition c ≤ hi) →
  ∃ v,
    averageCost_of p (fire_and_forget (Course.getAverageCost healthy p w))
      = Some (Some v) ∧
    lo ≤ v ∧ v - Num.ofZ 10 < hi.
Proof.
  intros Hb Hne Hall. rewrite (getAverageCost_some p w Hne).
  set (m := Num.avg (CourseDoc.tuition <$> courses_of p (db w))).
  exists (Num.ceil (m / Num.ofZ 10) * Num.ofZ 10). split.
  - unfold averageCost_of. simpl. by rewrite lookup_alter_eq, Hb.
  - assert (Hm : lo ≤ m ∧ m ≤ hi).
    { apply avg_between.
      - intros E. by apply fmap_nil_inv in E.
      - apply Forall_fmap, Forall_forall. intros c Hc. by apply Hall. }
    destruct (ceil10_bounds m) as [H1 H2]. split.
    + eapply Qcle_trans; [apply Hm | exact H1].
    + eapply Qclt_le_trans; [exact H2 | apply Hm].
Qed.

End BoundFacts.

(** ** The schema of a review *)

Section ReviewSchemaFacts.
Context `{Platform}.

Lemma validate_rating_nil (v : option Qc) :
  Review.validate_rating v = [] ↔
  ∃ q, v = Some q ∧ (Num.ofZ 1 ≤ q)%Qc ∧ (q ≤ Num.ofZ 10)%Qc.
Proof.
  unfold Review.validate_rating. destruct v as [q|].
  - destruct (Qclt_le_dec q (Num.ofZ 1)) as [Hlt|Hle].
    + split; [done|]. intros (q' & [= <-] & Hq & _).
      by apply Qcle_not_lt in Hq.
    + destruct (Qclt_le_dec (Num.ofZ 10) q) as [Hlt|Hle'].
      * split; [done|]. intros (q' & [= <-] & _ & Hq).
        by apply Qcle_not_lt in Hq.
      * split; [|done]. intros _. by exists q.
  - split; [done|]. by intros (q & [=] & _).
Qed.




(** X10. A required field that is left out is reported with the message
    the schema gives it. *)
Theorem missing_review_fields_are_named (i : Review.Input) :
  (Review.title i = None →
   "Please add a title for the review" ∈ Review.validate i) ∧
  (Review.text i = None → "Please add some text" ∈ Review.validate i) ∧
  (Review.rating i = None →
   "Please add a rating between 1 and 10" ∈ Review.validate i).
Proof.
  unfold Review.validate. split_and!; intros E; rewrite E; simpl.
  - by left.
  - apply elem_of_app. right. by left.
  - apply elem_of_app. right. apply elem_of_app. right. by left.
Qed.


(** X12. Creation and removal keep the ratings of the stored reviews
    within the bounds of the schema, along every sequence of child
    mutations. *)
Theorem ratings_stay_in_range (es : list Event) (w : World) :
  ratings_in_range (reviews (db w)) →
  ratings_in_range (reviews (db (run es w))).
Proof.
  revert w. induction es as [|e es IH]; intros w Hin; [done|].
  apply IH. clear IH.
  destruct e as [f id doc | f id | f id i b u | f id]; simpl.
  - unfold Course.create. destruct (courses (db w) !! id); [done|].
    simpl. unfold Course.post_save.
    by rewrite (proj2 (proj2 (cost_hook_frame f _ _))).
  - destruct (courses (db w) !! id) as [this|]; [|done].
    unfold Course.remove, Course.pre_remove. simpl.
    by rewrite (proj2 (proj2 (cost_hook_frame f _ _))).
  - unfold Review.create. destruct (Review.validate i) eqn:Hv; [|done].
    unfold Review.insertOne. destruct (reviews (db w) !! id) eqn:Hid; [done|].
    destruct (Review.index_taken _ _ _); [done|].
    simpl. unfold Review.post_save.
    rewrite (proj2 (proj2 (rating_hook_frame f _ _))). simpl.
    unfold Review.validate in Hv. apply app_eq_nil in Hv as [_ Hv].
    apply app_eq_nil in Hv as [_ Hv].
    apply validate_rating_nil in Hv as (q & Hq & Hlo & Hhi).
    intros j r Hj. rewrite lookup_insert in Hj. case_decide.
    + simplify_eq. unfold Review.to_doc. simpl. by rewrite Hq.
    + by eapply Hin.
  - destruct (reviews (db w) !! id) as [this|]; [|done].
    unfold Review.remove, Review.pre_remove. simpl.
    rewrite (proj2 (proj2 (rating_hook_frame f _ _))).
    intros j r Hj. apply lookup_delete_Some in Hj as [_ Hj]. by eapply Hin.
Qed.

End ReviewSchemaFacts.

(** ** Creation and removal of children *)


(** X14. Creating a review that passes the validators, under a fresh
    [_id], by an account that has not reviewed the bootcamp, for a
    bootcamp that exists and with working storage, stores the review built
    from the input, and the post-save hook leaves the bootcamp's
    [averageRating] at the mean of the ratings of its reviews, the new one
    included. *)
Theorem Review_create_updates_the_rating `{Platform}
    (id : ObjectId) (i : Review.Input) (b u : ObjectId) (bc : Bootcamp.t)
    (w : World) :
  Review.validate i = [] →
  reviews (db w) !! id = None →
  Review.index_taken b u (reviews (db w)) = false →
  bootcamps (db w) !! b = Some bc →
  ∃ w',
    Review.create healthy id i b u w = Resolved w' ∧
    reviews (db w') = <[id := Review.to_doc i b u]> (reviews (db w)) ∧
    Review.to_doc i b u ∈ reviews_of b (db w') ∧
    averageRating_of b w'
      = Some (Some (Num.avg (ReviewDoc.rating <$> reviews_of b (db w')))).
Proof.
  intros Hvalid Hfresh Hfree Hb. unfold Review.create. rewrite Hvalid.
  unfold Review.insertOne. rewrite Hfresh. simpl. rewrite Hfree.
  set (doc := Review.to_doc i b u).
  set (w1 := set_db (set_reviews (<[id := doc]> (reviews (db w))) (db w)) w).
  assert (Hin : doc ∈ reviews_of b (db w1)).
  { apply elem_of_reviews_of. split; [done|]. exists id. simpl.
    by rewrite lookup_insert_eq. }
  assert (Hne : reviews_of b (db w1) ≠ []).
  { intros E. rewrite E in Hin. by apply elem_of_nil in Hin. }
  unfold Review.post_save.
  change (ReviewDoc.bootcamp doc) with b.
  rewrite (getAverageRating_some b w1 Hne).
  eexists. split; [reflexivity|]. simpl. split_and!; [done | exact Hin |].
  unfold averageRating_of. simpl. by rewrite lookup_alter_eq, Hb.
Qed.



(** ** Sequences of child mutations, again *)

Lemma same_parent_refl (o : option Bootcamp.t) : same_parent o o.
Proof. by destruct o. Qed.

Lemma same_parent_trans (o1 o2 o3 : option Bootcamp.t) :
  same_parent o1 o2 → same_parent o2 o3 → same_parent o1 o3.
Proof.
  destruct o1, o2, o3; simpl; try done.
  intros [-> ->] [-> ->]. done.
Qed.

Lemma cost_hook_same_parent (f : Faults) (p q : ObjectId) (w : World) :
  same_parent (bootcamps (db w) !! q)
    (bootcamps (db (fire_and_forget (Course.getAverageCost f p w))) !! q).
Proof.
  unfold Course.getAverageCost, fire_and_forget, unhandledRejection.
  destruct (aggregate_fault f).
  { destruct (run_as_main w); apply same_parent_refl. }
  destruct (aggregate _ _ _ _) as [|[? ?] ?]; [apply same_parent_refl|].
  destruct (update_fault f); [apply same_parent_refl|]. simpl.
  destruct (decide (q = p)) as [->|Hq].
  - rewrite lookup_alter_eq.
    destruct (bootcamps (db w) !! p) as [b0|]; simpl; [by split | done].
  - rewrite lookup_alter_ne by done. apply same_parent_refl.
Qed.

Lemma rating_hook_same_parent (f : Faults) (p q : ObjectId) (w : World) :
  same_parent (bootcamps (db w) !! q)
    (bootcamps (db (fire_and_forget (Review.getAverageRating f p w))) !! q).
Proof.
  unfold Review.getAverageRating, fire_and_forget, unhandledRejection.
  destruct (aggregate_fault f).
  { destruct (run_as_main w); apply same_parent_refl. }
  destruct (aggregate _ _ _ _) as [|[? ?] ?]; [apply same_parent_refl|].
  destruct (update_fault f); [apply same_parent_refl|]. simpl.
  destruct (decide (q = p)) as [->|Hq].
  - rewrite lookup_alter_eq.
    destruct (bootcamps (db w) !! p) as [b0|]; simpl; [by split | done].
  - rewrite lookup_alter_ne by done. apply same_parent_refl.
Qed.

(** X17. Whatever the storage layer does, a sequence of creations and
    removals of courses and reviews never touches the users and never
    creates, deletes, renames or hands over a bootcamp: of the parents
    only the aggregates can change. *)
Theorem child_mutations_keep_users_and_parents `{Platform}
    (es : list Event) (w : World) :
  users (db (run es w)) = users (db w) ∧
  ∀ q, same_parent (bootcamps (db w) !! q) (bootcamps (db (run es w)) !! q).
Proof.
  revert w. induction es as [|e es IH]; intros w.
  { split; [done|]. intros q. apply same_parent_refl. }
  assert (Hstep : users (db (step w e)) = users (db w) ∧
                  ∀ q, same_parent (bootcamps (db w) !! q)
                                   (bootcamps (db (step w e)) !! q)).
  { destruct e as [f id doc | f id | f id i b u | f id]; simpl.
    - unfold Course.create. destruct (courses (db w) !! id).
      { split; [done|]. intros q. apply same_parent_refl. }
      simpl. unfold Course.post_save. split.
      + by rewrite (proj1 (cost_hook_frame f _ _)).
      + intros q.
        exact (cost_hook_same_parent f _ q
                 (set_db (set_courses (<[id := doc]> (courses (db w))) (db w))
                    w)).
    - destruct (courses (db w) !! id) as [this|].
      2:{ split; [done|]. intros q. apply same_parent_refl. }
      unfold Course.remove, Course.pre_remove. simpl. split.
      + by rewrite (proj1 (cost_hook_frame f _ _)).
      + intros q. apply cost_hook_same_parent.
    - unfold Review.create. destruct (Review.validate i).
      2:{ split; [done|]. intros q. apply same_parent_refl. }
      unfold Review.insertOne. destruct (reviews (db w) !! id).
      { split; [done|]. intros q. apply same_parent_refl. }
      destruct (Review.index_taken _ _ _).
      { split; [done|]. intros q. apply same_parent_refl. }
      simpl. unfold Review.post_save. split.
      + by rewrite (proj1 (rating_hook_frame f _ _)).
      + intros q.
        exact (rating_hook_same_parent f _ q
                 (set_db
                    (set_reviews
                       (<[id := Review.to_doc i b u]> (reviews (db w))) (db w))
                    w)).
    - destruct (reviews (db w) !! id) as [this|].
      2:{ split; [done|]. intros q. apply same_parent_refl. }
      unfold Review.remove, Review.pre_remove. simpl. split.
      + by rewrite (proj1 (rating_hook_frame f _ _)).
      + intros q. apply rating_hook_same_parent. }
  destruct Hstep as [Hu Hp]. destruct (IH (step w e)) as [IHu IHp].
  split.
  - change (run (e :: es) w) with (run es (step w e)). by rewrite IHu.
  - intros q. change (run (e :: es) w) with (run es (step w e)).
    eapply same_parent_trans; [apply Hp | apply IHp].
Qed.

(** ** The error handler, again *)

(** X18. Whatever is thrown, the error handler answers with a failure:
    [success: false], no data, a status that is not 0 and an error that is
    not the empty text; it logs the error it was given, once, and leaves
    the database and the process alone. *)
Theorem errorHandler_always_answers_a_failure (e : Err.t) (w : World) :
  let resp := (errorHandler e w).1 in
  let w' := (errorHandler e w).2 in
  status resp ≠ 0 ∧
  success resp = Some false ∧
  data resp = None ∧
  (∃ m, error resp = Some m ∧ m ≠ MsgText EmptyString) ∧
  db w' = db w ∧
  console w' = console w ++ [LogError e] ∧
  exited w' = exited w ∧ unhandled w' = unhandled w.
Proof.
  unfold errorHandler. simpl. split_and!; try done.
  - repeat case_decide; simpl; try done.
    unfold status_or. destruct (Err.statusCode e); [|done].
    by case_decide.
  - eexists. split; [reflexivity|].
    repeat case_decide; simpl; try done.
    destruct (Err.message e) as [[|a s]|l]; done.
Qed.


(** X20. An error with code 11000 that is not a validation error is
    answered 400 with "Duplicate field value entered", also when it is a
    [CastError] or carries a status of its own. *)
Theorem errorHandler_duplicate_key_overrides (e : Err.t) (w : World) :
  Err.code e = Some 11000 →
  Err.name e ≠ "ValidationError" →
  (errorHandler e w).1
    = mkResponse 400 (BError (MsgText "Duplicate field value entered")).
Proof.
  intros Hcode Hname. unfold errorHandler. simpl.
  rewrite (decide_True (P := Err.code e = Some 11000)) by done.
  by rewrite (decide_False (P := Err.name e = "ValidationError")).
Qed.

(** X21. An error that is none of the three kinds keeps its own status
    and message: without a status (or with status 0) it is answered 500,
    and its message goes to the client as it is, "Server Error" standing
    in only for an empty one. *)
Theorem errorHandler_passes_other_errors_on (e : Err.t) (w : World) :
  Err.name e ≠ "CastError" →
  Err.code e ≠ Some 11000 →
  Err.name e ≠ "ValidationError" →
  let resp := (errorHandler e w).1 in
  (Err.statusCode e = None ∨ Err.statusCode e = Some 0 → status resp = 500) ∧
  (∀ c, Err.statusCode e = Some c → c ≠ 0 → status resp = c) ∧
  (Err.message e = MsgText EmptyString →
   error resp = Some (MsgText "Server Error")) ∧
  (Err.message e ≠ MsgText EmptyString → error resp = Some (Err.message e)).
Proof.
  intros H1 H2 H3. unfold errorHandler. simpl.
  rewrite (decide_False (P := Err.name e = "CastError")) by done.
  rewrite (decide_False (P := Err.code e = Some 11000)) by done.
  rewrite (decide_False (P := Err.name e = "ValidationError")) by done.
  simpl. unfold error, status_or. simpl. split_and!.
  - by intros [-> | ->].
  - intros c -> Hc. by rewrite decide_False.
  - by intros ->.
  - intros Hm. by destruct (Err.message e) as [[|a s]|l].
Qed.

(** ** The users controller, again *)

Section UsersControllerMore.
Context `{Platform} {B : Type} `{UserModel B}.

Lemma getUser_found (c : Ctx B) (w : World) (id : ObjectId) (u : User.t) :
  castObjectId (params_id c) = Some id → users (db w) !! id = Some u →
  getUser c w = Sent (mkResponse 200 (BData (PUser id u))) w.
Proof.
  intros E N. unfold getUser, asyncHandler, User_findById. by rewrite E, N.
Qed.

(** X22. Deleting a user that exists answers 200 with an empty object and
    removes that user and nothing else: the other users, and the
    bootcamps, courses and reviews (the user's own among them), stay.
    Afterwards a lookup of the same identifier gives [data: null] and a
    second delete is answered 404. *)
Theorem deleteUser_removes_only_the_user
    (c : Ctx B) (w : World) (id : ObjectId) (u : User.t) :
  castObjectId (params_id c) = Some id →
  users (db w) !! id = Some u →
  ∃ w',
    chain [deleteUser] c w
      = (Some (mkResponse 200 (BData PEmptyObject)), w') ∧
    users (db w') = delete id (users (db w)) ∧
    bootcamps (db w') = bootcamps (db w) ∧
    courses (db w') = courses (db w) ∧
    reviews (db w') = reviews (db w) ∧
    (chain [getUser] c w').1 = Some (mkResponse 200 (BData PNull)) ∧
    (chain [deleteUser] c w').1
      = Some (mkResponse 404 (BError (MsgText "Resource not found"))).
Proof.
  intros Hcast Hu.
  set (w' := set_db (set_users (delete id (users (db w))) (db w)) w).
  assert (Hgone : users (db w') !! id = None)
    by (simpl; apply lookup_delete_eq).
  exists w'. split_and!; try done.
  - apply chain_sent. unfold deleteUser, asyncHandler, User_findById.
    by rewrite Hcast, Hu.
  - by rewrite (chain_sent _ _ _ _ _ _ (getUser_missing c w' id Hcast Hgone)).
  - rewrite (chain_error _ _ _ _ _ _ (deleteUser_missing c w' id Hcast Hgone)).
    by rewrite errorHandler_ErrorResponse.
Qed.


(** X24. An update the model accepts answers 200 with the updated user,
    stores it under the same identifier and leaves the other users alone;
    a lookup afterwards returns the updated user. *)
Theorem updateUser_stores_what_it_returns
    (c : Ctx B) (w : World) (id : ObjectId) (u u' : User.t) :
  castObjectId (params_id c) = Some id →
  users (db w) !! id = Some u →
  user_update (req_body c) id u (users (db w)) = inr u' →
  ∃ w',
    chain [updateUser] c w
      = (Some (mkResponse 200 (BData (PUser id u'))), w') ∧
    users (db w') !! id = Some u' ∧
    (∀ j, j ≠ id → users (db w') !! j = users (db w) !! j) ∧
    (chain [getUser] c w').1 = Some (mkResponse 200 (BData (PUser id u'))).
Proof.
  intros Hcast Hu Hupd.
  set (w' := set_db (set_users (<[id := u']> (users (db w))) (db w)) w).
  assert (Hnew : users (db w') !! id = Some u')
    by (simpl; apply lookup_insert_eq).
  exists w'. split_and!; try done.
  - apply chain_sent. unfold updateUser, asyncHandler, User_findById.
    rewrite Hcast, Hu. simpl. by rewrite Hupd.
  - intros j Hj. simpl. by rewrite lookup_insert_ne.
  - by rewrite (chain_sent _ _ _ _ _ _ (getUser_found c w' id u' Hcast Hnew)).
Qed.

(** X25. A creation the model accepts answers 201 with the new user and
    stores it under its identifier, leaving the other users alone; a
    lookup of that identifier afterwards returns the user. *)
Theorem createUser_stores_what_it_returns
    (c c' : Ctx B) (w : World) (id : ObjectId) (u : User.t) :
  user_create (req_body c) (users (db w)) = inr (id, u) →
  castObjectId (params_id c') = Some id →
  ∃ w',
    chain [createUser] c w = (Some (mkResponse 201 (BData (PUser id u))), w') ∧
    users (db w') !! id = Some u ∧
    (∀ j, j ≠ id → users (db w') !! j = users (db w) !! j) ∧
    (chain [getUser] c' w').1 = Some (mkResponse 200 (BData (PUser id u))).
Proof.
  intros Hnew Hcast.
  set (w' := set_db (set_users (<[id := u]> (users (db w))) (db w)) w).
  assert (Hin : users (db w') !! id = Some u)
    by (simpl; apply lookup_insert_eq).
  exists w'. split_and!; try done.
  - apply chain_sent. unfold createUser, asyncHandler. by rewrite Hnew.
  - intros j Hj. simpl. by rewrite lookup_insert_ne.
  - by rewrite (chain_sent _ _ _ _ _ _ (getUser_found c' w' id u Hcast Hin)).
Qed.

(** X26. A creation or an update the model refuses writes nothing: the
    error goes to the error handler, whose answer is the response. *)
Theorem refused_user_write_leaves_the_database
    (c : Ctx B) (w : World) (e : Err.t) :
  (user_create (req_body c) (users (db w)) = inl e →
   chain [createUser] c w = (Some (errorHandler e w).1, (errorHandler e w).2) ∧
   db (chain [createUser] c w).2 = db w) ∧
  (∀ id u, castObjectId (params_id c) = Some id →
     users (db w) !! id = Some u →
     user_update (req_body c) id u (users (db w)) = inl e →
     chain [updateUser] c w = (Some (errorHandler e w).1, (errorHandler e w).2) ∧
     db (chain [updateUser] c w).2 = db w).
Proof.
  split.
  - intros Hnew.
    assert (E : createUser c w = NextErr e w)
      by (unfold createUser, asyncHandler; by rewrite Hnew).
    by rewrite (chain_error _ _ _ _ _ _ E).
  - intros id u Hcast Hu Hupd.
    assert (E : updateUser c w = NextErr e w).
    { unfold updateUser, asyncHandler, User_findById.
      rewrite Hcast, Hu. simpl. by rewrite Hupd. }
    by rewrite (chain_error _ _ _ _ _ _ E).
Qed.

(** X27. The two lookups never write: on every request, found or not,
    well-formed or not, [getUsers] and [getUser] leave the database as it
    is. *)
Theorem user_lookups_never_write (c : Ctx B) (w : World) :
  db (chain [getUsers] c w).2 = db w ∧ db (chain [getUser] c w).2 = db w.
Proof.
  split; simpl.
  - done.
  - unfold getUser, asyncHandler, User_findById.
    destruct (castObjectId (params_id c)); [|done].
    by destruct (users (db w) !! _).
Qed.

Context `{Store (ObjectId * User.t)}.

(** X28. Every route of the users router stands behind the two gates:
    a response with [success: true], and any change to the database,
    happen only for a request that [protect] resolved to an account whose
    role is [admin]. *)
Theorem users_router_serves_administrators_only
    (r : UsersRoute) (c : Ctx B) (w : World) :
  let answer := chain (usersRouter r) c w in
  (db answer.2 ≠ db w ∨
   ∃ resp, answer.1 = Some resp ∧ success resp = Some true) →
  ∃ id u, protect c w = Next (set_user (id, u) c) w ∧ User.role u = "admin".
Proof.
  intros answer Hserved.
  assert (Hrefused : ∀ e, e = not_authorized ∨
            (∃ role, e = ErrorResponse
               (MsgText ("User role " +:+ role +:+
                         " is not authorized to access this route")) 403) →
            ¬ (db (errorHandler e w).2 ≠ db w ∨
               ∃ resp, Some (errorHandler e w).1 = Some resp ∧
                       success resp = Some true)).
  { intros e He [Hdb | (resp & [= <-] & Hs)]; [by apply Hdb|].
    by destruct He as [-> | [role ->]]. }
  assert (Hprotect : protect c w = NextErr not_authorized w ∨
            ∃ id u, protect c w = Next (set_user (id, u) c) w).
  { unfold protect. destruct (extract_token c) as [token|]; [|by left].
    destruct (jwt_verify token) as [id| |]; [|by left..].
    destruct (users (db w) !! id) as [u|]; [|by left].
    right. by exists id, u. }
  subst answer. unfold usersRouter in Hserved.
  destruct Hprotect as [Hp | (id & u & Hp)].
  { exfalso. rewrite (chain_error _ _ _ _ _ _ Hp) in Hserved.
    eapply Hrefused; [by left | exact Hserved]. }
  exists id, u. split; [done|].
  destruct (decide (User.role u ∈ ["admin"])) as [Hin|Hout].
  - by apply list_elem_of_singleton in Hin.
  - exfalso. rewrite (chain_next _ _ _ _ _ _ Hp) in Hserved.
    rewrite (chain_error _ _ _ _ _ _
               (authorize_denies ["admin"] (set_user (id, u) c) w id u
                  eq_refl Hout)) in Hserved.
    eapply Hrefused; [right; by eexists | exact Hserved].
Qed.

End UsersControllerMore.

(** ** The further properties on the small deployment *)

(** A course of another bootcamp is added to the courses. *)
Lemma aggregate_ignores_other_parents_witness :
  courses (db Demo.world) !! Demo.course3_id = None ∧
  CourseDoc.bootcamp Demo.other_course ≠ Demo.camp_id ∧
  aggregate CourseDoc.bootcamp CourseDoc.tuition Demo.camp_id
    (<[Demo.course3_id := Demo.other_course]> (courses (db Demo.world)))
  = aggregate CourseDoc.bootcamp CourseDoc.tuition Demo.camp_id
      (courses (db Demo.world)).
Proof.
  assert (H1 : courses (db Demo.world) !! Demo.course3_id = None)
    by (vm_compute; reflexivity).
  assert (H2 : CourseDoc.bootcamp Demo.other_course ≠ Demo.camp_id)
    by (vm_compute; discriminate).
  split; [exact H1|]. split; [exact H2|].
  exact (aggregate_ignores_other_parents CourseDoc.bootcamp CourseDoc.tuition
           Demo.camp_id (courses (db Demo.world)) Demo.course3_id
           Demo.other_course H1 H2).
Defined.

(** The update fails, the aggregation does not. *)
Lemma maintainers_resolve_when_aggregation_succeeds_witness :
  aggregate_fault Demo.failing_updates = None ∧
  (∃ w', Course.getAverageCost Demo.failing_updates Demo.camp_id Demo.world
           = Resolved w' ∧
         exited w' = exited Demo.world ∧ unhandled w' = unhandled Demo.world) ∧
  (∃ w', Review.getAverageRating Demo.failing_updates Demo.camp_id Demo.world
           = Resolved w' ∧
         exited w' = exited Demo.world ∧ unhandled w' = unhandled Demo.world).
Proof.
  split; [reflexivity|].
  destruct (maintainers_resolve_when_aggregation_succeeds
              Demo.failing_updates Demo.camp_id (Demo.course 12) Demo.review
              Demo.world eq_refl) as (Hc & Hr & _).
  split; [exact Hc | exact Hr].
Defined.

Lemma demo_reviews_of :
  reviews_of Demo.camp_id (db Demo.world) = [Demo.review].
Proof. vm_compute. reflexivity. Qed.

Lemma demo_courses_of :
  courses_of Demo.camp_id (db Demo.world) = [Demo.course 12; Demo.course 18].
Proof. vm_compute. reflexivity. Qed.

(** The one review of the deployment has rating 6. *)
Lemma averageRating_within_bounds_witness :
  ∃ m,
    averageRating_of Demo.camp_id
      (fire_and_forget
         (Review.getAverageRating healthy Demo.camp_id Demo.world))
      = Some (Some m) ∧
    (Num.ofZ 1 ≤ m)%Qc ∧ (m ≤ Num.ofZ 10)%Qc.
Proof.
  apply (averageRating_within_bounds Demo.camp_id Demo.camp Demo.world).
  - vm_compute. reflexivity.
  - rewrite demo_reviews_of. discriminate.
  - intros r Hr. rewrite demo_reviews_of in Hr.
    apply list_elem_of_singleton in Hr as ->. split; vm_compute; discriminate.
Defined.

(** The two courses of the deployment cost 12 and 18. *)
Lemma averageCost_within_bounds_witness :
  ∃ v,
    averageCost_of Demo.camp_id
      (fire_and_forget (Course.getAverageCost healthy Demo.camp_id Demo.world))
      = Some (Some v) ∧
    (Num.ofZ 12 ≤ v)%Qc ∧ (v - Num.ofZ 10 < Num.ofZ 18)%Qc.
Proof.
  apply (averageCost_within_bounds Demo.camp_id Demo.camp Demo.world).
  - vm_compute. reflexivity.
  - rewrite demo_courses_of. discriminate.
  - intros c Hc. rewrite demo_courses_of in Hc.
    apply elem_of_cons in Hc as [-> | Hc];
      [|apply list_elem_of_singleton in Hc as ->];
      split; vm_compute; discriminate.
Defined.


Lemma demo_ratings_in_range : ratings_in_range (reviews (db Demo.world)).
Proof.
  intros id r Hr. simpl in Hr. apply lookup_singleton_Some in Hr as [_ <-].
  split; vm_compute; discriminate.
Qed.

(** The review of the deployment comes and goes, and comes again. *)
Lemma ratings_stay_in_range_witness :
  ratings_in_range (reviews (db Demo.world)) ∧
  ratings_in_range
    (reviews (db (run (H := Demo.platform)
                    (Demo.review_comes_and_goes ++ Demo.review_comes_and_goes)
                    Demo.world))).
Proof.
  split; [exact demo_ratings_in_range|].
  exact (ratings_stay_in_range (H := Demo.platform) _ Demo.world
           demo_ratings_in_range).
Defined.


(** The first review of the bootcamp without children. *)
Lemma Review_create_updates_the_rating_witness :
  Review.validate (H := Demo.platform) (Demo.review_input 6) = [] ∧
  reviews (db Demo.empty_world) !! Demo.review_id = None ∧
  Review.index_taken Demo.camp_id Demo.greg_id (reviews (db Demo.empty_world))
    = false ∧
  bootcamps (db Demo.empty_world) !! Demo.camp_id = Some Demo.camp ∧
  ∃ w',
    Review.create (H := Demo.platform) healthy Demo.review_id
      (Demo.review_input 6) Demo.camp_id Demo.greg_id Demo.empty_world
      = Resolved w' ∧
    reviews (db w')
      = <[Demo.review_id :=
            Review.to_doc (Demo.review_input 6) Demo.camp_id Demo.greg_id]>
          (reviews (db Demo.empty_world)) ∧
    Review.to_doc (Demo.review_input 6) Demo.camp_id Demo.greg_id
      ∈ reviews_of Demo.camp_id (db w') ∧
    averageRating_of Demo.camp_id w'
      = Some (Some (Num.avg
          (ReviewDoc.rating <$> reviews_of Demo.camp_id (db w')))).
Proof.
  assert (H1 : Review.validate (H := Demo.platform) (Demo.review_input 6) = [])
    by (vm_compute; reflexivity).
  assert (H2 : reviews (db Demo.empty_world) !! Demo.review_id = None)
    by (vm_compute; reflexivity).
  assert (H3 : Review.index_taken Demo.camp_id Demo.greg_id
                 (reviews (db Demo.empty_world)) = false)
    by (vm_compute; reflexivity).
  assert (H4 : bootcamps (db Demo.empty_world) !! Demo.camp_id = Some Demo.camp)
    by (vm_compute; reflexivity).
  split_and!; [exact H1 | exact H2 | exact H3 | exact H4 |].
  exact (Review_create_updates_the_rating (H := Demo.platform)
           Demo.review_id (Demo.review_input 6) Demo.camp_id Demo.greg_id
           Demo.camp Demo.empty_world H1 H2 H3 H4).
Defined.




(** A cast error that carries code 11000 and a status of its own. *)
Lemma errorHandler_duplicate_key_overrides_witness :
  Err.code Demo.cast_error_with_code = Some 11000 ∧
  Err.name Demo.cast_error_with_code ≠ "ValidationError" ∧
  (errorHandler Demo.cast_error_with_code Demo.world).1
    = mkResponse 400 (BError (MsgText "Duplicate field value entered")).
Proof.
  assert (H2 : Err.name Demo.cast_error_with_code ≠ "ValidationError")
    by (vm_compute; discriminate).
  split; [reflexivity|]. split; [exact H2|].
  exact (errorHandler_duplicate_key_overrides Demo.cast_error_with_code
           Demo.world eq_refl H2).
Defined.

(** A [TypeError] thrown by a handler. *)
Lemma errorHandler_passes_other_errors_on_witness :
  Err.name Demo.type_error ≠ "CastError" ∧
  Err.code Demo.type_error ≠ Some 11000 ∧
  Err.name Demo.type_error ≠ "ValidationError" ∧
  status (errorHandler Demo.type_error Demo.world).1 = 500 ∧
  error (errorHandler Demo.type_error Demo.world).1
    = Some (MsgText "Cannot read properties of undefined").
Proof.
  assert (H1 : Err.name Demo.type_error ≠ "CastError")
    by (vm_compute; discriminate).
  assert (H2 : Err.code Demo.type_error ≠ Some 11000)
    by (vm_compute; discriminate).
  assert (H3 : Err.name Demo.type_error ≠ "ValidationError")
    by (vm_compute; discriminate).
  destruct (errorHandler_passes_other_errors_on Demo.type_error Demo.world
              H1 H2 H3) as (Hstatus & _ & _ & Hmsg).
  split_and!; [exact H1 | exact H2 | exact H3 | |].
  - apply Hstatus. by left.
  - apply Hmsg. discriminate.
Defined.

(** Greg is deleted. *)
Lemma deleteUser_removes_only_the_user_witness :
  let c := Demo.request Demo.greg_id "admin.jwt" tt in
  castObjectId (Platform := Demo.platform) (params_id c) = Some Demo.greg_id ∧
  users (db Demo.world) !! Demo.greg_id = Some Demo.greg ∧
  ∃ w',
    chain [deleteUser (H := Demo.platform) (B := unit)] c Demo.world
      = (Some (mkResponse 200 (BData PEmptyObject)), w') ∧
    users (db w') = delete Demo.greg_id (users (db Demo.world)) ∧
    bootcamps (db w') = bootcamps (db Demo.world) ∧
    courses (db w') = courses (db Demo.world) ∧
    reviews (db w') = reviews (db Demo.world) ∧
    (chain [getUser (H := Demo.platform) (B := unit)] c w').1
      = Some (mkResponse 200 (BData PNull)) ∧
    (chain [deleteUser (H := Demo.platform) (B := unit)] c w').1
      = Some (mkResponse 404 (BError (MsgText "Resource not found"))).
Proof.
  intros c.
  assert (H1 : castObjectId (Platform := Demo.platform) (params_id c)
               = Some Demo.greg_id) by (vm_compute; reflexivity).
  assert (H2 : users (db Demo.world) !! Demo.greg_id = Some Demo.greg)
    by (vm_compute; reflexivity).
  split; [exact H1|]. split; [exact H2|].
  exact (deleteUser_removes_only_the_user (H := Demo.platform) c Demo.world
           Demo.greg_id Demo.greg H1 H2).
Defined.


(** Greg's record is replaced by Natalie's. *)
Lemma updateUser_stores_what_it_returns_witness :
  let c := Demo.request Demo.greg_id "admin.jwt" Demo.natalie in
  castObjectId (Platform := Demo.platform) (params_id c) = Some Demo.greg_id ∧
  users (db Demo.world) !! Demo.greg_id = Some Demo.greg ∧
  user_update (UserModel := Demo.open_user_model) (req_body c) Demo.greg_id
    Demo.greg (users (db Demo.world)) = inr Demo.natalie ∧
  ∃ w',
    chain [updateUser (H := Demo.platform) (H0 := Demo.open_user_model)] c
      Demo.world
      = (Some (mkResponse 200 (BData (PUser Demo.greg_id Demo.natalie))), w') ∧
    users (db w') !! Demo.greg_id = Some Demo.natalie ∧
    (∀ j, j ≠ Demo.greg_id → users (db w') !! j = users (db Demo.world) !! j) ∧
    (chain [getUser (H := Demo.platform) (B := User.t)] c w').1
      = Some (mkResponse 200 (BData (PUser Demo.greg_id Demo.natalie))).
Proof.
  intros c.
  assert (H1 : castObjectId (Platform := Demo.platform) (params_id c)
               = Some Demo.greg_id) by (vm_compute; reflexivity).
  assert (H2 : users (db Demo.world) !! Demo.greg_id = Some Demo.greg)
    by (vm_compute; reflexivity).
  split; [exact H1|]. split; [exact H2|]. split; [reflexivity|].
  exact (updateUser_stores_what_it_returns (H := Demo.platform)
           (H0 := Demo.open_user_model) c Demo.world Demo.greg_id Demo.greg
           Demo.natalie H1 H2 eq_refl).
Defined.

(** Natalie is created and looked up. *)
Lemma createUser_stores_what_it_returns_witness :
  let c := Demo.request EmptyString "admin.jwt" Demo.natalie in
  let c' := Demo.request Demo.new_user_id "admin.jwt" Demo.natalie in
  user_create (UserModel := Demo.open_user_model) (req_body c)
    (users (db Demo.world)) = inr (Demo.new_user_id, Demo.natalie) ∧
  castObjectId (Platform := Demo.platform) (params_id c')
    = Some Demo.new_user_id ∧
  ∃ w',
    chain [createUser (H0 := Demo.open_user_model)] c Demo.world
      = (Some (mkResponse 201 (BData (PUser Demo.new_user_id Demo.natalie))),
         w') ∧
    users (db w') !! Demo.new_user_id = Some Demo.natalie ∧
    (∀ j, j ≠ Demo.new_user_id →
          users (db w') !! j = users (db Demo.world) !! j) ∧
    (chain [getUser (H := Demo.platform) (B := User.t)] c' w').1
      = Some (mkResponse 200 (BData (PUser Demo.new_user_id Demo.natalie))).
Proof.
  intros c c'.
  assert (H2 : castObjectId (Platform := Demo.platform) (params_id c')
               = Some Demo.new_user_id) by (vm_compute; reflexivity).
  split; [reflexivity|]. split; [exact H2|].
  exact (createUser_stores_what_it_returns (H := Demo.platform)
           (H0 := Demo.open_user_model) c c' Demo.world Demo.new_user_id
           Demo.natalie eq_refl H2).
Defined.

(** The administrator is served; such a request was resolved to an
    administrator. *)
Lemma users_router_serves_administrators_only_witness :
  let c := Demo.request Demo.greg_id "admin.jwt" tt in
  let answer :=
    chain (@usersRouter Demo.platform unit Demo.user_model Demo.user_store
             GET_user) c Demo.world in
  (db answer.2 ≠ db Demo.world ∨
   ∃ resp, answer.1 = Some resp ∧ success resp = Some true) ∧
  ∃ id u,
    protect (H := Demo.platform) c Demo.world
      = Next (set_user (id, u) c) Demo.world ∧
    User.role u = "admin".
Proof.
  intros c answer.
  assert (H1 : db answer.2 ≠ db Demo.world ∨
               ∃ resp, answer.1 = Some resp ∧ success resp = Some true).
  { right. exists (mkResponse 200 (BData (PUser Demo.greg_id Demo.greg))).
    split; vm_compute; reflexivity. }
  split; [exact H1|].
  exact (@users_router_serves_administrators_only Demo.platform unit
           Demo.user_model Demo.user_store GET_user c Demo.world H1).
Defined.

(** A review without any field. *)
Lemma missing_review_fields_are_named_witness :
  let i := Review.mkInput None None None in
  "Please add a title for the review" ∈ Review.validate (H := Demo.platform) i ∧
  "Please add some text" ∈ Review.validate (H := Demo.platform) i ∧
  "Please add a rating between 1 and 10"
    ∈ Review.validate (H := Demo.platform) i.
Proof.
  intros i.
  destruct (missing_review_fields_are_named (H := Demo.platform) i)
    as (Ht & Hx & Hr).
  split_and!; [exact (Ht eq_refl) | exact (Hx eq_refl) | exact (Hr eq_refl)].
Defined.

(** The model of the deployment refuses every creation. *)
Lemma refused_user_write_leaves_the_database_witness :
  let c := Demo.request EmptyString "admin.jwt" tt in
  let e := ValidationError ["Please add a password"] in
  user_create (UserModel := Demo.user_model) (req_body c)
    (users (db Demo.world)) = inl e ∧
  chain [createUser (H0 := Demo.user_model)] c Demo.world
    = (Some (errorHandler e Demo.world).1, (errorHandler e Demo.world).2) ∧
  db (chain [createUser (H0 := Demo.user_model)] c Demo.world).2
    = db Demo.world.
Proof.
  intros c e. split; [reflexivity|].
  exact (proj1 (refused_user_write_leaves_the_database
                  (H := Demo.platform) (H0 := Demo.user_model)
                  c Demo.world e) eq_refl).
Defined.
